(** * The NUT integration: derivation helpers, data fetcher and entry lifecycle

    A shallow embedding of [homeassistant/components/nut/__init__.py].

    - [Py]        the fragment of Python's value semantics the module relies
                  on: [None], truthiness, [or], [str.lower], [str.count],
                  [str.join].
    - [Helpers]   the pure helpers [_manufacturer_from_status] ...
                  [_unique_id_from_status].
    - [Fetcher]   the class [PyNUTData], with the remote client as the
                  environment of one poll cycle.
    - [Lifecycle] [async_update_data], [async_setup_entry] and
                  [async_unload_entry] over an explicit host state.

    Strings are [string]s whose characters stand for code points below 256;
    a status mapping is a [gmap string string]; the result of [dict.get] is
    an [option string], [None] being Python's [None]. *)

From Stdlib Require Import ZArith NArith Ascii String List Bool Lia.
From stdpp Require Import base option gmap strings list fin_maps.

Local Open Scope string_scope.
Local Open Scope list_scope.

(** ** Python values *)

Module Py.

(** [bool(v)] for [v] either [None] or a [str]. *)
Definition truthy (v : option string) : bool :=
  match v with
  | None => false
  | Some EmptyString => false
  | Some (String _ _) => true
  end.

(** [a or b]: [a] when it is truthy, [b] otherwise. *)
Definition py_or (a b : option string) : option string :=
  if truthy a then a else b.

(** [str.lower] on one code point below 256: the letters A-Z and the
    Latin-1 capitals U+00C0-U+00DE (the sign U+00D7 apart) move up by 32. *)
Definition lower_char (c : ascii) : ascii :=
  let n := N_of_ascii c in
  if ((65 <=? n) && (n <=? 90))%N
     || ((192 <=? n) && (n <=? 222) && negb (n =? 215))%N
  then ascii_of_N (n + 32)
  else c.

Fixpoint lower (s : string) : string :=
  match s with
  | EmptyString => EmptyString
  | String c s' => String (lower_char c) (lower s')
  end.

(** [s.count(c)] for a one-character [c]. *)
Fixpoint count (c : ascii) (s : string) : nat :=
  match s with
  | EmptyString => 0
  | String d s' => (if Ascii.eqb d c then 1 else 0) + count c s'
  end.

Definition len (s : string) : nat := String.length s.

(** [sep.join(l)]. *)
Fixpoint join (sep : string) (l : list string) : string :=
  match l with
  | [] => ""
  | [x] => x
  | x :: l' => x +:+ sep +:+ join sep l'
  end.

(** [l.append(v)] for a [v] known to be a [str]. *)
Definition append (l : list string) (v : option string) : list string :=
  match v with
  | Some s => l ++ [s]
  | None => l
  end.

End Py.

(** ** Derivation helpers *)

Module Helpers.
Import Py.

Abbreviation Status := (gmap string string).

Definition _manufacturer_from_status (status : Status) : option string :=
  py_or (status !! "device.mfr")
    (py_or (status !! "ups.mfr")
       (py_or (status !! "ups.vendorid")
          (status !! "driver.version.data"))).

Definition _model_from_status (status : Status) : option string :=
  py_or (status !! "device.model")
    (py_or (status !! "ups.model")
       (status !! "ups.productid")).

Definition _firmware_from_status (status : Status) : option string :=
  py_or (status !! "ups.firmware") (status !! "ups.firmware.aux").

Definition _serial_from_status (status : Status) : option string :=
  let serial := py_or (status !! "device.serial") (status !! "ups.serial") in
  match serial with
  | Some s =>
      if truthy serial
         && (String.eqb (lower s) "unknown" || Nat.eqb (count "0" s) (len s))
      then None
      else serial
  | None => serial
  end.

Definition _unique_id_from_status (status : Status) : option string :=
  let serial := _serial_from_status status in
  if negb (truthy serial) then None
  else
    let manufacturer := _manufacturer_from_status status in
    let model := _model_from_status status in
    let unique_id_group : list string := [] in
    let unique_id_group :=
      if truthy manufacturer then append unique_id_group manufacturer
      else unique_id_group in
    let unique_id_group :=
      if truthy model then append unique_id_group model
      else unique_id_group in
    let unique_id_group :=
      if truthy serial then append unique_id_group serial
      else unique_id_group in
    Some (join "_" unique_id_group).

End Helpers.

(** ** Stateful code: state, exceptions and a log of what was done *)

Module Run.

Inductive outcome (E A : Type) : Type :=
| Returns (a : A)
| Raises (e : E).
Arguments Returns {E A} a.
Arguments Raises {E A} e.

(** A computation over a mutable object of type [S], which may raise an
    [E] and leaves a log of [V]s behind. *)
Definition M (S V E A : Type) : Type := S → S * list V * outcome E A.

Section ops.
Context {S V E : Type}.

Definition ret {A} (a : A) : M S V E A := λ s, (s, [], Returns a).

Definition bind {A B} (m : M S V E A) (k : A → M S V E B) : M S V E B :=
  λ s,
    match m s with
    | (s1, l1, Returns a) =>
        match k a s1 with
        | (s2, l2, r) => (s2, l1 ++ l2, r)
        end
    | (s1, l1, Raises e) => (s1, l1, Raises e)
    end.

Definition raise {A} (e : E) : M S V E A := λ s, (s, [], Raises e).

Definition get : M S V E S := λ s, (s, [], Returns s).

Definition modify (f : S → S) : M S V E unit := λ s, (f s, [], Returns tt).

Definition emit (v : V) : M S V E unit := λ s, (s, [v], Returns tt).

Definition emit_all (l : list V) : M S V E unit := λ s, (s, l, Returns tt).

(** [try: m  except <handled e>: h e]; an exception for which [handler]
    gives [None] passes through. *)
Definition try_except {A} (m : M S V E A) (handler : E → option (M S V E A))
  : M S V E A :=
  λ s,
    match m s with
    | (s1, l1, Raises e) =>
        match handler e with
        | Some h =>
            match h s1 with
            | (s2, l2, r) => (s2, l1 ++ l2, r)
            end
        | None => (s1, l1, Raises e)
        end
    | done => done
    end.
End ops.

(** Running [m] where another exception type is expected. *)
Definition map_exn {S V E E' A} (f : E → E') (m : M S V E A) : M S V E' A :=
  λ s,
    match m s with
    | (s1, l1, Returns a) => (s1, l1, Returns a)
    | (s1, l1, Raises e) => (s1, l1, Raises (f e))
    end.

(** The three parts of a run from the state [s]. *)
Definition state_after {S V E A} (m : M S V E A) (s : S) : S := (m s).1.1.
Definition log_of {S V E A} (m : M S V E A) (s : S) : list V := (m s).1.2.
Definition result_of {S V E A} (m : M S V E A) (s : S) : outcome E A := (m s).2.

Declare Scope run_scope.
Delimit Scope run_scope with run.
Notation "x <- m ;; k" := (bind m (λ x, k))
  (at level 100, m at next level, right associativity) : run_scope.
Notation "m ;;; k" := (bind m (λ _, k))
  (at level 100, right associativity) : run_scope.

End Run.

(** ** The data fetcher, class [PyNUTData] *)

Module Fetcher.
Import Py Helpers Run.
Local Open Scope run_scope.

(** A value stored in a config entry ([entry.data], [entry.options]). *)
Inductive cfgval : Type :=
| VStr (s : string)
| VInt (n : Z)
| VList (l : list string).

(** What a call of the third-party client can raise. *)
Inductive client_exn : Type :=
| PyNUTError (msg : string)
| ConnectionResetError
| OtherError (name : string).

(** The mapping [list_ups] returns, in the order of its keys. *)
Abbreviation UpsList := (list (string * string)).

(** The client of [self._client], connected to the server as it answers
    during one call of [update]. *)
Record PyNUTClient : Type := {
  list_ups : outcome client_exn UpsList;
  list_vars : option cfgval → outcome client_exn Status;
}.

Inductive level : Type := ERROR | DEBUG.

Inductive event : Type :=
| ListUps (r : outcome client_exn UpsList)
| ListVars (alias : option cfgval) (r : outcome client_exn Status)
| Log (lvl : level) (msg : string).

Record PyNUTData : Type := {
  _host : cfgval;
  _alias : option cfgval;
  ups_list : option UpsList;
  _status : option Status;
}.

Definition set_alias (a : option cfgval) (self : PyNUTData) : PyNUTData :=
  {| _host := _host self; _alias := a;
     ups_list := ups_list self; _status := _status self |}.

Definition set_ups_list (u : option UpsList) (self : PyNUTData) : PyNUTData :=
  {| _host := _host self; _alias := _alias self;
     ups_list := u; _status := _status self |}.

Definition set_status (st : option Status) (self : PyNUTData) : PyNUTData :=
  {| _host := _host self; _alias := _alias self;
     ups_list := ups_list self; _status := st |}.

(** [PyNUTData(host, port, alias, username, password)]; port and
    credentials only reach the client. *)
Definition __init__ (host : cfgval) (alias : option cfgval) : PyNUTData :=
  {| _host := host; _alias := alias; ups_list := None; _status := None |}.

(** The property [status]. *)
Definition status (self : PyNUTData) : option Status := _status self.

(** The property [name]. *)
Definition name (self : PyNUTData) : option cfgval := _alias self.

Abbreviation Method := (M PyNUTData event client_exn).

Section methods.
Variable _client : PyNUTClient.

Definition call_list_ups : Method UpsList :=
  λ self, (self, [ListUps (list_ups _client)], list_ups _client).

Definition call_list_vars (alias : option cfgval) : Method Status :=
  λ self, (self, [ListVars alias (list_vars _client alias)],
           list_vars _client alias).

Definition _get_alias : Method (option cfgval) :=
  listed <-
    try_except
      (ups_list <- call_list_ups ;; ret (Some ups_list))
      (λ err,
         match err with
         | PyNUTError _ =>
             Some (emit (Log ERROR "Failure getting NUT ups alias, %s") ;;;
                   ret None)
         | _ => None
         end) ;;
  match listed with
  | None => ret None
  | Some [] =>
      emit (Log ERROR "Empty list while getting NUT ups aliases") ;;;
      ret None
  | Some (((first, _) :: _) as ups_list) =>
      modify (set_ups_list (Some ups_list)) ;;;
      ret (Some (VStr first))
  end.

Definition _get_status : Method (option Status) :=
  self <- get ;;
  match _alias self with
  | None => alias <- _get_alias ;; modify (set_alias alias)
  | Some _ => ret tt
  end ;;;
  self <- get ;;
  try_except
    (vars <- call_list_vars (_alias self) ;; ret (Some vars))
    (λ err,
       match err with
       | PyNUTError _ | ConnectionResetError =>
           Some (emit (Log DEBUG "Error getting NUT vars for host %s: %s") ;;;
                 ret None)
       | OtherError _ => None
       end).

Definition update : Method unit :=
  st <- _get_status ;;
  modify (set_status st).

End methods.

End Fetcher.

(** ** Setting up and unloading a config entry *)

Module Lifecycle.
Import Py Helpers Run Fetcher.
Local Open Scope run_scope.

(** The names imported from [homeassistant.const] and [.const], and the
    one library constructor whose failure setup does not handle. *)
Class Constants : Type := {
  CONF_ALIAS : string;
  CONF_HOST : string;
  CONF_PORT : string;
  CONF_RESOURCES : string;
  CONF_SCAN_INTERVAL : string;
  DEFAULT_SCAN_INTERVAL : cfgval;
  DOMAIN : string;
  PLATFORMS : list string;
  (** [timedelta(seconds=v)]: the interval in seconds, or the name of the
      exception the constructor raises for [v]. *)
  timedelta : cfgval → string + Z;
}.

Inductive exn : Type :=
| UpdateFailed (msg : string)
| KeyError (key : string)
| ConfigEntryNotReady
| FromClient (e : client_exn)
| FromLibrary (name : string).

Record ConfigEntry : Type := {
  entry_id : string;
  data : gmap string cfgval;
  options : gmap string cfgval;
  update_listeners : list string;
}.

Record DataUpdateCoordinator : Type := {
  coordinator_name : string;
  update_interval : Z;
  coordinator_data : Status;
}.

(** The value stored under [hass.data[DOMAIN][entry.entry_id]]; the undo
    callback is kept as the listener it removes. *)
Record Handle : Type := {
  COORDINATOR : DataUpdateCoordinator;
  PYNUT_DATA : PyNUTData;
  PYNUT_UNIQUE_ID : string;
  PYNUT_MANUFACTURER : option string;
  PYNUT_MODEL : option string;
  PYNUT_FIRMWARE : option string;
  UNDO_UPDATE_LISTENER : string;
}.

(** The host as this module touches it: [hass.data.get(DOMAIN)] and the
    config entry passed to both entry points. *)
Record HomeAssistant : Type := {
  hass_data : option (gmap string Handle);
  entry : ConfigEntry;
}.

Inductive host_event : Type :=
| Fetch (e : event)
| SetupPlatforms (entry_id : string) (platforms : list string)
| UnloadPlatforms (entry_id : string) (platforms : list string) (ok : bool).

Definition set_options (o : gmap string cfgval) (e : ConfigEntry) : ConfigEntry :=
  {| entry_id := entry_id e; data := data e; options := o;
     update_listeners := update_listeners e |}.

Definition set_update_listeners (l : list string) (e : ConfigEntry) : ConfigEntry :=
  {| entry_id := entry_id e; data := data e; options := options e;
     update_listeners := l |}.

Definition set_entry (e : ConfigEntry) (hass : HomeAssistant) : HomeAssistant :=
  {| hass_data := hass_data hass; entry := e |}.

Definition set_hass_data (d : option (gmap string Handle)) (hass : HomeAssistant)
  : HomeAssistant :=
  {| hass_data := d; entry := entry hass |}.

Abbreviation Host := (M HomeAssistant host_event exn).

(** [bool(data.status)]: [None] and the empty mapping are falsy. *)
Definition status_truthy (st : option Status) : bool :=
  match st with
  | None => false
  | Some m => negb (bool_decide (m = ∅))
  end.

(** Modelled from the spec: [hass.config_entries.async_update_entry(entry,
    options=...)] of the host framework, whose code is outside this
    component; the spec gives the entry a mutable options sub-record,
    replaced here. *)
Definition async_update_entry (new_options : gmap string cfgval) : Host unit :=
  modify (λ hass, set_entry (set_options new_options (entry hass)) hass).

(** Modelled from the spec: [entry.add_update_listener(listener)] of the
    host framework (register an update listener; the callable it returns
    deregisters it). *)
Definition add_update_listener (listener : string) : Host string :=
  modify (λ hass,
    set_entry (set_update_listeners (update_listeners (entry hass) ++ [listener])
                 (entry hass)) hass) ;;;
  ret listener.

(** Removing the first registration of [listener]. *)
Fixpoint remove_listener (listener : string) (l : list string) : list string :=
  match l with
  | [] => []
  | x :: l' => if String.eqb x listener then l' else x :: remove_listener listener l'
  end.

(** Modelled from the spec: calling the callable [add_update_listener]
    returned. *)
Definition call_undo (listener : string) : Host unit :=
  modify (λ hass,
    set_entry (set_update_listeners
                 (remove_listener listener (update_listeners (entry hass)))
                 (entry hass)) hass).

Section entry_points.
Context `{Constants}.

(** Lines 40-43 of [async_setup_entry]: strip out the stale options. *)
Definition strip_stale_options : Host unit :=
  hass <- get ;;
  if bool_decide (is_Some (options (entry hass) !! CONF_RESOURCES)) then
    let new_options :=
      filter (λ kv, kv.1 ≠ CONF_RESOURCES) (options (entry hass)) in
    async_update_entry new_options
  else ret tt.

(** The closure [async_update_data] of [async_setup_entry], run on the
    fetcher [data]; the time limit around it is not part of the model.
    [if not data.status] is taken on [None] and on the empty mapping. *)
Definition async_update_data (_client : PyNUTClient)
  : M PyNUTData event exn Status :=
  map_exn FromClient (update _client) ;;;
  data <- get ;;
  match status data with
  | Some st =>
      if negb (status_truthy (Some st))
      then raise (UpdateFailed "Error fetching UPS state")
      else ret st
  | None => raise (UpdateFailed "Error fetching UPS state")
  end.

(** Modelled from the spec: [coordinator.async_config_entry_first_refresh()]
    of the host framework: one refresh with the update method; if it
    fails setup fails, otherwise its result is the coordinator's data. *)
Definition async_config_entry_first_refresh
    (update_method : M PyNUTData event exn Status) (data : PyNUTData)
  : Host (PyNUTData * Status) :=
  match update_method data with
  | (data1, log, Returns st) => emit_all (Fetch <$> log) ;;; ret (data1, st)
  | (data1, log, Raises _) => emit_all (Fetch <$> log) ;;; raise ConfigEntryNotReady
  end.

(** [mapping[key]]. *)
Definition subscript {A} (mapping : gmap string A) (key : string) : Host A :=
  match mapping !! key with
  | Some v => ret v
  | None => raise (KeyError key)
  end.

Definition async_setup_entry (_client : PyNUTClient) : Host bool :=
  strip_stale_options ;;;
  hass <- get ;;
  let config := data (entry hass) in
  host <- subscript config CONF_HOST ;;
  port <- subscript config CONF_PORT ;;
  let alias := config !! CONF_ALIAS in
  let scan_interval :=
    default DEFAULT_SCAN_INTERVAL (options (entry hass) !! CONF_SCAN_INTERVAL) in
  let data := __init__ host alias in
  interval <-
    match timedelta scan_interval with
    | inr seconds => ret seconds
    | inl name => raise (FromLibrary name)
    end ;;
  refreshed <-
    async_config_entry_first_refresh (async_update_data _client) data ;;
  let '(data, status) := refreshed in
  let coordinator :=
    {| coordinator_name := "NUT resource status";
       update_interval := interval;
       coordinator_data := status |} in
  undo_listener <- add_update_listener "_async_update_listener" ;;
  let unique_id :=
    match _unique_id_from_status status with
    | None => entry_id (entry hass)
    | Some unique_id => unique_id
    end in
  modify (λ hass,
    let store := default ∅ (hass_data hass) in
    set_hass_data
      (Some (<[entry_id (entry hass) :=
               {| COORDINATOR := coordinator;
                  PYNUT_DATA := data;
                  PYNUT_UNIQUE_ID := unique_id;
                  PYNUT_MANUFACTURER := _manufacturer_from_status status;
                  PYNUT_MODEL := _model_from_status status;
                  PYNUT_FIRMWARE := _firmware_from_status status;
                  UNDO_UPDATE_LISTENER := undo_listener |}]> store))
      hass) ;;;
  emit (SetupPlatforms (entry_id (entry hass)) PLATFORMS) ;;;
  ret true.

(** [unload_ok] is what [hass.config_entries.async_unload_platforms]
    answers. *)
Definition async_unload_entry (unload_ok : bool) : Host bool :=
  hass <- get ;;
  emit (UnloadPlatforms (entry_id (entry hass)) PLATFORMS unload_ok) ;;;
  store <-
    match hass_data hass with
    | Some store => ret store
    | None => raise (KeyError DOMAIN)
    end ;;
  handle <- subscript store (entry_id (entry hass)) ;;
  call_undo (UNDO_UPDATE_LISTENER handle) ;;;
  (if unload_ok
   then modify (set_hass_data (Some (delete (entry_id (entry hass)) store)))
   else ret tt) ;;;
  ret unload_ok.

End entry_points.

(** The constants as Home Assistant defines them, for running examples. *)
Definition home_assistant : Constants :=
  {| CONF_ALIAS := "alias";
     CONF_HOST := "host";
     CONF_PORT := "port";
     CONF_RESOURCES := "resources";
     CONF_SCAN_INTERVAL := "scan_interval";
     DEFAULT_SCAN_INTERVAL := VInt 60;
     DOMAIN := "nut";
     PLATFORMS := ["sensor"];
     timedelta := λ v, match v with
                       | VInt n => inr n
                       | _ => inl "TypeError"
                       end |}.

End Lifecycle.

(** ** The vocabulary of the specification *)

Module Spec.
Import Py Helpers Run Fetcher Lifecycle.

Inductive helper : Type := Manufacturer | Model | Firmware | Serial.

(** The fallback keys of each helper, in order. *)
Definition chain (h : helper) : list string :=
  match h with
  | Manufacturer => ["device.mfr"; "ups.mfr"; "ups.vendorid"; "driver.version.data"]
  | Model => ["device.model"; "ups.model"; "ups.productid"]
  | Firmware => ["ups.firmware"; "ups.firmware.aux"]
  | Serial => ["device.serial"; "ups.serial"]
  end.

Definition derive (h : helper) : Status → option string :=
  match h with
  | Manufacturer => _manufacturer_from_status
  | Model => _model_from_status
  | Firmware => _firmware_from_status
  | Serial => _serial_from_status
  end.

(** The value of the first key of [keys] that the mapping holds with a
    value other than the empty string. *)
Fixpoint first_non_empty (keys : list string) (status : Status) : option string :=
  match keys with
  | [] => None
  | k :: keys' =>
      match status !! k with
      | Some (String c s) => Some (String c s)
      | _ => first_non_empty keys' status
      end
  end.

(** Every character of [s] is [c]. *)
Fixpoint all_chars (c : ascii) (s : string) : bool :=
  match s with
  | EmptyString => true
  | String d s' => Ascii.eqb d c && all_chars c s'
  end.

(** The filter on serial numbers: "unknown" in any case, or zeros only. *)
Definition rejected_serial (v : string) : bool :=
  String.eqb (lower v) "unknown" || all_chars "0" v.

(** The values among [vs] that are there and not empty, in order. *)
Fixpoint present_values (vs : list (option string)) : list string :=
  match vs with
  | [] => []
  | Some (String c s) :: vs' => String c s :: present_values vs'
  | _ :: vs' => present_values vs'
  end.

(** A status in which the first key of a chain holds the empty string. *)
Definition empty_first_key : Status :=
  <["device.mfr" := ""]> (<["ups.mfr" := "X"]>
    (<["device.serial" := ""]> {[ "ups.serial" := "SN123" ]})).

(** A status in which only the last key of a chain is there, empty. *)
Definition empty_last_key : Status :=
  <["driver.version.data" := ""]> {[ "ups.serial" := "" ]}.

(** A status whose first non-empty serial value is made of zeros. *)
Definition zeros_after_empty : Status :=
  <["device.serial" := ""]> {[ "ups.serial" := "0000" ]}.

Definition acme : Status :=
  <["device.mfr" := "Acme"]> (<["device.model" := "X1"]>
    {[ "device.serial" := "SN123" ]}).

(** The exceptions [_get_status] handles around the variable request: a
    protocol error and a reset connection. *)
Definition caught (e : client_exn) : Prop :=
  match e with
  | PyNUTError _ | ConnectionResetError => True
  | OtherError _ => False
  end.

(** A fetcher with an alias and the snapshot of an earlier cycle. *)
Definition polled : PyNUTData :=
  {| _host := VStr "ups.local"; _alias := Some (VStr "ups1");
     ups_list := None; _status := Some acme |}.

(** A fetcher as setup builds it when no alias is configured. *)
Definition unnamed : PyNUTData := __init__ (VStr "ups.local") None.

(** A server that resets the connection on the variable request. *)
Definition resetting : PyNUTClient :=
  {| list_ups := Returns [("ups1", "Rack UPS")];
     list_vars := λ _, Raises ConnectionResetError |}.

(** A server with no device. *)
Definition no_devices : PyNUTClient :=
  {| list_ups := Returns [];
     list_vars := λ _, Raises (PyNUTError "ERR UNKNOWN-UPS") |}.

(** A server with one device, answering with the status [st]. *)
Definition serving (st : Status) : PyNUTClient :=
  {| list_ups := Returns [("ups1", "Rack UPS")];
     list_vars := λ _, Returns st |}.

(** A server whose answers end in exceptions the fetcher does not handle
    where they are raised. *)
Definition broken : PyNUTClient :=
  {| list_ups := Raises ConnectionResetError;
     list_vars := λ _, Raises (OtherError "UnicodeDecodeError") |}.

(** A status from which no serial can be derived. *)
Definition no_serial : Status := {[ "ups.mfr" := "Acme" ]}.

(** A host holding one configured entry that was never set up, with the
    stale resources option still stored. *)
Definition configured : HomeAssistant :=
  {| hass_data := None;
     entry :=
       {| entry_id := "0123abcd";
          data := <["host" := VStr "ups.local"]> {[ "port" := VInt 3493 ]};
          options :=
            <["resources" := VList ["ups.load"]]> {[ "scan_interval" := VInt 30 ]};
          update_listeners := [] |} |}.

(** A host whose entry has no connection data. *)
Definition unconfigured : HomeAssistant :=
  {| hass_data := None;
     entry :=
       {| entry_id := "0123abcd";
          data := ∅;
          options := {[ "resources" := VList ["ups.load"] ]};
          update_listeners := [] |} |}.

(** A host whose entry has a scan interval that is not a number. *)
Definition misconfigured : HomeAssistant :=
  {| hass_data := None;
     entry :=
       {| entry_id := "0123abcd";
          data := <["host" := VStr "ups.local"]> {[ "port" := VInt 3493 ]};
          options := {[ "scan_interval" := VStr "soon" ]};
          update_listeners := [] |} |}.

(** A host whose entry names the device to poll and sets no scan interval. *)
Definition aliased : HomeAssistant :=
  {| hass_data := None;
     entry :=
       {| entry_id := "0123abcd";
          data :=
            <["host" := VStr "ups.local"]>
              (<["port" := VInt 3493]> {[ "alias" := VStr "ups1" ]});
          options := ∅;
          update_listeners := [] |} |}.

(** The handle of an entry set up from the status [acme]. *)
Definition acme_handle : Handle :=
  {| COORDINATOR :=
       {| coordinator_name := "NUT resource status";
          update_interval := 30;
          coordinator_data := acme |};
     PYNUT_DATA := polled;
     PYNUT_UNIQUE_ID := "Acme_X1_SN123";
     PYNUT_MANUFACTURER := Some "Acme";
     PYNUT_MODEL := Some "X1";
     PYNUT_FIRMWARE := None;
     UNDO_UPDATE_LISTENER := "_async_update_listener" |}.

(** A host on which that entry is set up. *)
Definition loaded : HomeAssistant :=
  {| hass_data := Some {[ "0123abcd" := acme_handle ]};
     entry :=
       {| entry_id := "0123abcd";
          data := <["host" := VStr "ups.local"]> {[ "port" := VInt 3493 ]};
          options := {[ "scan_interval" := VInt 30 ]};
          update_listeners := ["_async_update_listener"] |} |}.

End Spec.

(** * Properties of the derivation helpers *)

Module HelpersFacts.
Import Py Helpers Spec.

Lemma count_le_len c s : (count c s ≤ len s)%nat.
Proof.
  induction s as [|d s IH]; simpl; [lia|].
  unfold len in *. destruct (Ascii.eqb d c); simpl; lia.
Qed.

(** [s.count(c) == len(s)] says that [s] is made of [c] only. *)
Lemma count_eq_len c s : Nat.eqb (count c s) (len s) = all_chars c s.
Proof.
  induction s as [|d s IH]; [reflexivity|].
  cbn [count len String.length all_chars].
  destruct (Ascii.eqb d c); cbn [andb Nat.add Nat.eqb].
  - exact IH.
  - pose proof (count_le_len c s) as Hle. unfold len in Hle.
    apply Nat.eqb_neq. lia.
Qed.

(** Case analysis on every lookup in the goal: missing, empty, non-empty. *)
Ltac lookups status :=
  repeat match goal with
    | |- context [status !! ?k] => generalize (status !! k); intros [[|??]|]
    end.

(** What a chain of [or]s over lookups gives: the first non-empty value,
    and the lookup of the last key when there is none. *)
Lemma derive_first_non_empty h status :
  match first_non_empty (chain h) status with
  | Some v =>
      derive h status
      = match h with
        | Serial => if rejected_serial v then None else Some v
        | _ => Some v
        end
  | None =>
      derive h status = status !! List.last (chain h) ""
      ∧ (derive h status = None ∨ derive h status = Some "")
  end.
Proof.
  destruct h; cbn [chain derive first_non_empty List.last];
    unfold _manufacturer_from_status, _model_from_status,
      _firmware_from_status, _serial_from_status, py_or;
    lookups status; cbn [truthy andb negb];
    rewrite ?count_eq_len; auto.
Qed.

(** C4, as amended: when the mapping holds a non-empty value under
    "device.mfr", the manufacturer is exactly that value, whatever the
    other keys hold. *)
Theorem manufacturer_prefers_device_mfr (status : Status) (v : string) :
  status !! "device.mfr" = Some v →
  v ≠ "" →
  _manufacturer_from_status status = Some v.
Proof.
  intros Hv Hne. unfold _manufacturer_from_status, py_or. rewrite Hv.
  destruct v; [congruence | reflexivity].
Qed.

Lemma manufacturer_prefers_device_mfr_witness :
  _manufacturer_from_status acme = Some "Acme".
Proof.
  apply (manufacturer_prefers_device_mfr acme "Acme");
    [reflexivity | discriminate].
Defined.

(** C4 fails as stated: the mapping contains "device.mfr", with the empty
    string as its value, and the manufacturer is the value of "ups.mfr". *)
Lemma manufacturer_empty_device_mfr :
  empty_first_key !! "device.mfr" = Some ""
  ∧ _manufacturer_from_status empty_first_key = Some "X"
  ∧ _manufacturer_from_status empty_first_key ≠ empty_first_key !! "device.mfr".
Proof. repeat split; vm_compute; congruence. Qed.

(** C10, as amended: in every helper an empty value under a key other
    than the last of the chain counts as a missing key; the helper gives
    the first non-empty value of its chain (the serial helper gives
    absence instead when that value is "unknown" in any case or zeros
    only); when no key holds a non-empty value it gives what the last key
    holds, absence or the empty string. *)
Theorem empty_values_in_fallback_chain (h : helper) (status : Status) :
  (∀ k, In k (removelast (chain h)) → status !! k = Some "" →
        derive h (delete k status) = derive h status)
  ∧ (∀ v, first_non_empty (chain h) status = Some v →
          derive h status
          = match h with
            | Serial => if rejected_serial v then None else Some v
            | _ => Some v
            end)
  ∧ (first_non_empty (chain h) status = None →
     derive h status = status !! List.last (chain h) ""
     ∧ (derive h status = None ∨ derive h status = Some "")).
Proof.
  split; [|split].
  - intros k Hk He.
    destruct h; cbn [chain removelast In] in Hk;
      repeat (destruct Hk as [<-|Hk]); try contradiction;
      cbn [derive];
      unfold _manufacturer_from_status, _model_from_status,
        _firmware_from_status, _serial_from_status;
      rewrite lookup_delete_eq, ?lookup_delete_ne, He by discriminate;
      reflexivity.
  - intros v Hv. pose proof (derive_first_non_empty h status) as H.
    rewrite Hv in H. exact H.
  - intros Hn. pose proof (derive_first_non_empty h status) as H.
    rewrite Hn in H. exact H.
Qed.

Lemma empty_values_in_fallback_chain_witness :
  _manufacturer_from_status (delete "device.mfr" empty_first_key)
  = _manufacturer_from_status empty_first_key
  ∧ _manufacturer_from_status empty_first_key = Some "X"
  ∧ _serial_from_status empty_last_key = empty_last_key !! "ups.serial".
Proof.
  split; [|split].
  - apply (proj1 (empty_values_in_fallback_chain Manufacturer empty_first_key));
      [left; reflexivity | reflexivity].
  - apply (proj1 (proj2 (empty_values_in_fallback_chain Manufacturer
                           empty_first_key))).
    reflexivity.
  - apply (proj2 (proj2 (empty_values_in_fallback_chain Serial empty_last_key))).
    reflexivity.
Defined.

(** C10 fails as stated: with the last key of the chain mapped to the
    empty string and no other key, the helpers give the empty string, not
    absence, which is what they give without the key; and the serial
    helper does not give the next non-empty value "0000". *)
Lemma empty_last_key_is_returned :
  (first_non_empty (chain Manufacturer) empty_last_key = None
   ∧ _manufacturer_from_status empty_last_key = Some ""
   ∧ _manufacturer_from_status (delete "driver.version.data" empty_last_key) = None)
  ∧ (first_non_empty (chain Serial) empty_last_key = None
     ∧ _serial_from_status empty_last_key = Some "")
  ∧ (first_non_empty (chain Serial) zeros_after_empty = Some "0000"
     ∧ _serial_from_status zeros_after_empty = None).
Proof. repeat split; vm_compute; reflexivity. Qed.

(** C2, as amended: the serial is taken from the first non-empty value of
    "device.serial" then "ups.serial"; it is absent when that value is
    "unknown" in any case or made of zeros only, and is that value
    otherwise; when neither key holds a non-empty value the result is what
    "ups.serial" holds, absence or the empty string.  So "0000" and
    "UNKNOWN" give absence and "SN123" gives "SN123". *)
Theorem serial_from_status_filtered (status : Status) :
  (∀ v, first_non_empty (chain Serial) status = Some v →
        _serial_from_status status
        = if rejected_serial v then None else Some v)
  ∧ (first_non_empty (chain Serial) status = None →
     _serial_from_status status = status !! "ups.serial"
     ∧ (_serial_from_status status = None ∨ _serial_from_status status = Some ""))
  ∧ (first_non_empty (chain Serial) status = Some "0000" →
     _serial_from_status status = None)
  ∧ (first_non_empty (chain Serial) status = Some "UNKNOWN" →
     _serial_from_status status = None)
  ∧ (first_non_empty (chain Serial) status = Some "SN123" →
     _serial_from_status status = Some "SN123").
Proof.
  pose proof (derive_first_non_empty Serial status) as H.
  cbn [derive chain List.last] in H.
  split; [|split; [|split; [|split]]].
  - intros v Hv. cbn [chain] in Hv. rewrite Hv in H. exact H.
  - intros Hn. cbn [chain] in Hn. rewrite Hn in H. exact H.
  - intros Hv. cbn [chain] in Hv. rewrite Hv in H. exact H.
  - intros Hv. cbn [chain] in Hv. rewrite Hv in H. exact H.
  - intros Hv. cbn [chain] in Hv. rewrite Hv in H. exact H.
Qed.

Lemma serial_from_status_filtered_witness :
  _serial_from_status zeros_after_empty = None
  ∧ _serial_from_status acme = Some "SN123".
Proof.
  split.
  - apply (proj1 (serial_from_status_filtered zeros_after_empty) "0000").
    reflexivity.
  - apply (proj2 (proj2 (proj2 (proj2 (serial_from_status_filtered acme))))).
    reflexivity.
Defined.

(** C2 fails as stated: "device.serial" is in the mapping, its value is
    the empty string, and the serial is the value of "ups.serial"; and
    with the empty string under "ups.serial" alone the serial is the empty
    string, not absence. *)
Lemma serial_skips_empty_device_serial :
  (empty_first_key !! "device.serial" = Some ""
   ∧ _serial_from_status empty_first_key = Some "SN123")
  ∧ (empty_last_key !! "device.serial" = None
     ∧ empty_last_key !! "ups.serial" = Some ""
     ∧ _serial_from_status empty_last_key = Some "").
Proof. repeat split; vm_compute; reflexivity. Qed.

(** C1: when the serial helper gives a valid serial (a non-empty string),
    the unique id is the values of manufacturer, model and serial that are
    present (derived and not the empty string), in that order, joined with
    "_"; when it gives no valid serial the unique id is absent.  So
    "Acme", "X1", "SN123" give "Acme_X1_SN123" and the serial "SN123" alone
    gives "SN123". *)
Theorem unique_id_joins_present_values (status : Status) :
  (∀ serial, _serial_from_status status = Some serial → serial ≠ "" →
     _unique_id_from_status status
     = Some (join "_" (present_values [_manufacturer_from_status status;
                                       _model_from_status status;
                                       Some serial])))
  ∧ (_serial_from_status status = None ∨ _serial_from_status status = Some "" →
     _unique_id_from_status status = None)
  ∧ (_manufacturer_from_status status = Some "Acme" →
     _model_from_status status = Some "X1" →
     _serial_from_status status = Some "SN123" →
     _unique_id_from_status status = Some "Acme_X1_SN123")
  ∧ (_manufacturer_from_status status = None →
     _model_from_status status = None →
     _serial_from_status status = Some "SN123" →
     _unique_id_from_status status = Some "SN123").
Proof.
  unfold _unique_id_from_status.
  split; [|split; [|split]].
  - intros serial -> Hne.
    destruct serial as [|c serial]; [congruence|].
    destruct (_manufacturer_from_status status) as [[|??]|];
      destruct (_model_from_status status) as [[|??]|]; reflexivity.
  - intros [-> | ->]; reflexivity.
  - intros -> -> ->. reflexivity.
  - intros -> -> ->. reflexivity.
Qed.

Lemma unique_id_joins_present_values_witness :
  _unique_id_from_status acme = Some "Acme_X1_SN123"
  ∧ _unique_id_from_status empty_first_key = Some "X_SN123"
  ∧ _unique_id_from_status empty_last_key = None.
Proof.
  split; [|split].
  - apply (proj1 (proj2 (proj2 (unique_id_joins_present_values acme))));
      reflexivity.
  - apply (proj1 (unique_id_joins_present_values empty_first_key) "SN123");
      [reflexivity | discriminate].
  - apply (proj1 (proj2 (unique_id_joins_present_values empty_last_key))).
    right. reflexivity.
Defined.

End HelpersFacts.

(** * Properties of the data fetcher *)

Module FetcherFacts.
Import Py Helpers Run Fetcher Spec.

(** Running [update] symbolically: unfold the methods and split on the
    alias and on what the server answers. *)
Ltac run_update H :=
  unfold update, _get_status, _get_alias, call_list_ups, call_list_vars,
    bind, try_except, get, modify, ret, emit in H;
  repeat match type of H with
    | context [_alias ?self] =>
        is_var self;
        let a := fresh "a" in
        let E := fresh "Ealias" in
        destruct (_alias self) as [a|] eqn:E; cbn in H
    | context [list_ups ?c] =>
        let E := fresh "Eups" in
        destruct (list_ups c) as [[|[??] ?]|[?| |?]] eqn:E; cbn in H
    | context [list_vars ?c ?a] =>
        let E := fresh "Evars" in
        destruct (list_vars c a) as [?|[?| |?]] eqn:E; cbn in H
    end.

Ltac in_log H :=
  cbn in H;
  repeat (destruct H as [H|H]; try discriminate H);
  try contradiction.

(** C3: when the variable request of an update raises a protocol error or
    a connection reset, the update returns and the status snapshot is
    absent afterwards, whatever the snapshot was before. *)
Theorem failed_update_clears_status
    (_client : PyNUTClient) (self self' : PyNUTData) (log : list event)
    (r : outcome client_exn unit) (alias : option cfgval) (e : client_exn) :
  update _client self = (self', log, r) →
  In (ListVars alias (Raises e)) log →
  caught e →
  status self' = None ∧ r = Returns tt.
Proof.
  intros Hu Hin Hc.
  run_update Hu; injection Hu as <- <- <-; in_log Hin;
    try (injection Hin as <- <-); cbn in *; try contradiction; auto.
Qed.

Lemma failed_update_clears_status_witness :
  status polled = Some acme
  ∧ status (state_after (update resetting) polled) = None.
Proof.
  split; [reflexivity|].
  apply (failed_update_clears_status resetting polled
           (state_after (update resetting) polled)
           (log_of (update resetting) polled)
           (result_of (update resetting) polled)
           (Some (VStr "ups1")) ConnectionResetError).
  - reflexivity.
  - left. reflexivity.
  - exact I.
Defined.

(** C9: an update of a fetcher with no alias starts with the request for
    the device list, before any request for variables; when that request
    raises a protocol error or returns an empty list the alias is still
    unset after the update, and the variables were requested without an
    alias. *)
Theorem update_without_alias
    (_client : PyNUTClient) (self self' : PyNUTData) (log : list event)
    (r : outcome client_exn unit) :
  _alias self = None →
  update _client self = (self', log, r) →
  (∃ rest, log = ListUps (list_ups _client) :: rest
           ∧ ∀ u, ¬ In (ListUps u) rest)
  ∧ ((∃ msg, list_ups _client = Raises (PyNUTError msg))
     ∨ list_ups _client = Returns [] →
     _alias self' = None
     ∧ In (ListVars None (list_vars _client None)) log).
Proof.
  intros Hnone Hu.
  run_update Hu; try congruence; injection Hu as <- <- <-;
    (split;
     [ eexists; split; [reflexivity|];
       intros u Hin; in_log Hin
     | intros [[? Hm]|Hm]; try discriminate Hm; cbn;
       rewrite ?Hnone; auto 10 ]).
Qed.

Lemma update_without_alias_witness :
  _alias (state_after (update no_devices) unnamed) = None.
Proof.
  apply (update_without_alias no_devices unnamed
           (state_after (update no_devices) unnamed)
           (log_of (update no_devices) unnamed)
           (result_of (update no_devices) unnamed)).
  - reflexivity.
  - reflexivity.
  - right. reflexivity.
Defined.

End FetcherFacts.

(** * Properties of setup, polling and unload *)

Module LifecycleFacts.
Import Py Helpers Run Fetcher Lifecycle Spec.

Section facts.
Context `{Constants}.

Lemma stripped_options (hass : HomeAssistant) :
  options (entry (state_after strip_stale_options hass))
  = filter (λ kv, kv.1 ≠ CONF_RESOURCES) (options (entry hass)).
Proof.
  unfold state_after, strip_stale_options, bind, get, async_update_entry,
    modify, ret.
  case_bool_decide as Hres; cbn.
  - reflexivity.
  - symmetry. apply map_filter_id. intros k v Hk. cbn. intros ->.
    apply Hres. eauto.
Qed.

Lemma stripped_lookup (hass : HomeAssistant) (k : string) :
  options (entry (state_after strip_stale_options hass)) !! k
  = if decide (k = CONF_RESOURCES) then None else options (entry hass) !! k.
Proof.
  rewrite stripped_options, map_lookup_filter.
  destruct (decide (k = CONF_RESOURCES)) as [->|Hk];
    destruct (options (entry hass) !! _) as [v|]; cbn; try reflexivity.
  - rewrite option_guard_False; [reflexivity | cbn; tauto].
  - rewrite option_guard_True; [reflexivity | exact Hk].
Qed.

(** C5: stripping the stale resources option a second time changes nothing;
    after the first time the resources key is gone and every other key of
    the options holds what it held, and nothing else of the host or of the
    entry is touched. *)
Theorem strip_stale_options_idempotent (hass : HomeAssistant) :
  state_after strip_stale_options (state_after strip_stale_options hass)
  = state_after strip_stale_options hass
  ∧ options (entry (state_after strip_stale_options hass)) !! CONF_RESOURCES = None
  ∧ (∀ k, k ≠ CONF_RESOURCES →
          options (entry (state_after strip_stale_options hass)) !! k
          = options (entry hass) !! k)
  ∧ set_entry (set_options (options (entry hass))
                 (entry (state_after strip_stale_options hass)))
      (state_after strip_stale_options hass)
    = hass.
Proof.
  assert (Hgone :
    options (entry (state_after strip_stale_options hass)) !! CONF_RESOURCES = None).
  { rewrite stripped_lookup. destruct (decide _); [reflexivity | congruence]. }
  split; [|split; [exact Hgone|split]].
  - unfold state_after at 1. unfold strip_stale_options at 1.
    unfold bind, get. cbn.
    rewrite bool_decide_eq_false_2; [reflexivity|].
    rewrite Hgone. intros [? ?]. discriminate.
  - intros k Hk. rewrite stripped_lookup.
    destruct (decide _); [contradiction | reflexivity].
  - unfold state_after, strip_stale_options, bind, get, async_update_entry,
      modify, ret.
    destruct hass as [d [i c o l]].
    case_bool_decide; reflexivity.
Qed.

(** C6, as amended: in every poll cycle, when the periodic job raises
    "update failed" the status after it is absent or empty; and in every
    cycle in which the fetcher's update returns, the job raises
    "update failed" exactly when the status after the update is absent or
    empty, returns that status when it is not empty, and leaves the fetcher
    as the update left it. *)
Theorem update_failed_iff_status_empty (_client : PyNUTClient) (data : PyNUTData) :
  (∀ msg, result_of (async_update_data _client) data = Raises (UpdateFailed msg) →
          status (state_after (async_update_data _client) data) = None
          ∨ status (state_after (async_update_data _client) data) = Some ∅)
  ∧ (result_of (update _client) data = Returns tt →
     state_after (async_update_data _client) data
     = state_after (update _client) data
     ∧ ((∃ msg, result_of (async_update_data _client) data
                = Raises (UpdateFailed msg))
        ↔ (status (state_after (update _client) data) = None
           ∨ status (state_after (update _client) data) = Some ∅))
     ∧ (∀ st, status (state_after (update _client) data) = Some st → st ≠ ∅ →
              result_of (async_update_data _client) data = Returns st)).
Proof.
  unfold result_of, state_after, async_update_data, bind, map_exn, get.
  destruct (update _client data) as [[data1 log] [[]|e]]; cbn.
  - destruct (status data1) as [st|] eqn:Estatus; cbn.
    + case_bool_decide as Hempty; cbn.
      * subst st. split; [intros msg _; right; exact Estatus|].
        intros _. split; [reflexivity|]. split.
        -- split; eauto.
        -- intros st [= <-]. congruence.
      * split; [intros msg Hm; discriminate|].
        intros _. split; [reflexivity|]. split.
        -- split.
           ++ intros [msg Hm]. discriminate.
           ++ intros [Hn|[= ->]]; [discriminate | contradiction].
        -- intros st' [= <-] _. reflexivity.
    + split; [intros msg _; left; exact Estatus|].
      intros _. split; [reflexivity|]. split.
      * split; eauto.
      * intros st Hst. discriminate.
  - split; [intros msg Hm; discriminate | discriminate].
Qed.

Lemma remove_listener_count (listener : string) (l : list string) :
  count_occ String.string_dec (remove_listener listener l) listener
  = Nat.pred (count_occ String.string_dec l listener).
Proof.
  induction l as [|x l IH]; [reflexivity|].
  cbn [remove_listener]. destruct (String.eqb_spec x listener) as [->|Hne].
  - rewrite count_occ_cons_eq by reflexivity. reflexivity.
  - rewrite !count_occ_cons_neq by exact Hne. exact IH.
Qed.

(** C7: unloading an entry whose handle is stored calls the undo callback
    of the options listener whether platform teardown succeeded or not
    (one registration of the listener is gone), answers what the teardown
    answered, and removes the entry's handle from the domain store exactly
    when the teardown succeeded; the handles of other entries stay. *)
Theorem unload_removes_listener_and_handle
    (hass : HomeAssistant) (unload_ok : bool)
    (store : gmap string Handle) (handle : Handle) :
  hass_data hass = Some store →
  store !! entry_id (entry hass) = Some handle →
  result_of (async_unload_entry unload_ok) hass = Returns unload_ok
  ∧ update_listeners (entry (state_after (async_unload_entry unload_ok) hass))
    = remove_listener (UNDO_UPDATE_LISTENER handle) (update_listeners (entry hass))
  ∧ count_occ String.string_dec
      (update_listeners (entry (state_after (async_unload_entry unload_ok) hass)))
      (UNDO_UPDATE_LISTENER handle)
    = Nat.pred (count_occ String.string_dec (update_listeners (entry hass))
                  (UNDO_UPDATE_LISTENER handle))
  ∧ ∃ store',
      hass_data (state_after (async_unload_entry unload_ok) hass) = Some store'
      ∧ (store' !! entry_id (entry hass) = None ↔ unload_ok = true)
      ∧ ∀ k, k ≠ entry_id (entry hass) → store' !! k = store !! k.
Proof.
  intros Hstore Hhandle.
  unfold result_of, state_after, async_unload_entry, subscript, call_undo,
    bind, get, modify, emit, ret, raise.
  cbn. rewrite Hstore. cbn. rewrite Hhandle. cbn.
  destruct unload_ok; cbn.
  - split; [reflexivity|]. split; [reflexivity|].
    split; [apply remove_listener_count|].
    eexists. split; [reflexivity|]. split.
    + split; [reflexivity | intros _; apply lookup_delete_eq].
    + intros k Hk. apply lookup_delete_ne. congruence.
  - split; [reflexivity|]. split; [reflexivity|].
    split; [apply remove_listener_count|].
    exists store. rewrite Hstore. split; [reflexivity|]. split.
    + rewrite Hhandle. split; discriminate.
    + reflexivity.
Qed.

Lemma strip_run (hass : HomeAssistant) :
  strip_stale_options hass
  = (state_after strip_stale_options hass, [], Returns tt).
Proof.
  unfold state_after, strip_stale_options, bind, get, async_update_entry,
    modify, ret.
  case_bool_decide; reflexivity.
Qed.

Lemma strip_keeps (hass : HomeAssistant) :
  entry_id (entry (state_after strip_stale_options hass)) = entry_id (entry hass)
  ∧ data (entry (state_after strip_stale_options hass)) = data (entry hass)
  ∧ hass_data (state_after strip_stale_options hass) = hass_data hass.
Proof.
  unfold state_after, strip_stale_options, bind, get, async_update_entry,
    modify, ret.
  case_bool_decide; repeat split.
Qed.

(** What a setup that gets through its initial refresh stores. *)
Lemma setup_stores_handle
    (_client : PyNUTClient) (hass : HomeAssistant) (host port : cfgval)
    (seconds : Z) (data1 : PyNUTData) (log : list event) (st : Status) :
  data (entry hass) !! CONF_HOST = Some host →
  data (entry hass) !! CONF_PORT = Some port →
  timedelta
    (default DEFAULT_SCAN_INTERVAL
       (options (entry (state_after strip_stale_options hass))
        !! CONF_SCAN_INTERVAL))
  = inr seconds →
  async_update_data _client (__init__ host (data (entry hass) !! CONF_ALIAS))
  = (data1, log, Returns st) →
  result_of (async_setup_entry _client) hass = Returns true
  ∧ ∃ store handle,
      hass_data (state_after (async_setup_entry _client) hass) = Some store
      ∧ store !! entry_id (entry hass) = Some handle
      ∧ PYNUT_DATA handle = data1
      ∧ coordinator_data (COORDINATOR handle) = st
      ∧ PYNUT_UNIQUE_ID handle
        = default (entry_id (entry hass)) (_unique_id_from_status st).
Proof.
  intros Hhost Hport Hinterval Hrefresh.
  destruct (strip_keeps hass) as (Hid & Hdata & Hstore).
  unfold result_of, state_after, async_setup_entry, bind.
  rewrite strip_run. cbn [get].
  rewrite Hdata. unfold subscript. rewrite Hhost, Hport. cbn [ret].
  rewrite Hinterval. cbn [ret].
  unfold async_config_entry_first_refresh. rewrite Hrefresh.
  cbn. rewrite Hid.
  split; [reflexivity|].
  eexists _, _. split; [reflexivity|].
  split; [apply lookup_insert_eq|].
  cbn. split; [reflexivity|]. split; [reflexivity|].
  destruct (_unique_id_from_status st); reflexivity.
Qed.

(** C8: a setup that reaches its initial refresh (host and port are
    configured, the scan interval is accepted), whose refresh succeeds with
    a status from which no unique id can be derived, does not fail: it
    returns [True], and the unique id stored in the entry's handle is the
    entry's own id. *)
Theorem setup_falls_back_to_entry_id
    (_client : PyNUTClient) (hass : HomeAssistant) (host port : cfgval)
    (seconds : Z) (data1 : PyNUTData) (log : list event) (st : Status) :
  data (entry hass) !! CONF_HOST = Some host →
  data (entry hass) !! CONF_PORT = Some port →
  timedelta
    (default DEFAULT_SCAN_INTERVAL
       (options (entry (state_after strip_stale_options hass))
        !! CONF_SCAN_INTERVAL))
  = inr seconds →
  async_update_data _client (__init__ host (data (entry hass) !! CONF_ALIAS))
  = (data1, log, Returns st) →
  _unique_id_from_status st = None →
  result_of (async_setup_entry _client) hass = Returns true
  ∧ ∃ store handle,
      hass_data (state_after (async_setup_entry _client) hass) = Some store
      ∧ store !! entry_id (entry hass) = Some handle
      ∧ PYNUT_UNIQUE_ID handle = entry_id (entry hass).
Proof.
  intros Hhost Hport Hinterval Hrefresh Hnone.
  destruct (setup_stores_handle _client hass host port seconds data1 log st
              Hhost Hport Hinterval Hrefresh)
    as (Hresult & store & handle & Hstore & Hhandle & _ & _ & Hid).
  split; [exact Hresult|].
  exists store, handle. rewrite Hid, Hnone. auto.
Qed.

End facts.

Lemma strip_stale_options_idempotent_witness :
  options (entry (state_after (strip_stale_options (H := home_assistant))
                    configured)) !! "scan_interval"
  = Some (VInt 30).
Proof.
  apply (proj1 (proj2 (proj2
           (strip_stale_options_idempotent (H := home_assistant) configured)))
           "scan_interval").
  discriminate.
Defined.

Lemma update_failed_iff_status_empty_witness :
  (∃ msg, result_of (async_update_data resetting) polled
          = Raises (UpdateFailed msg))
  ∧ result_of (async_update_data (serving acme)) polled = Returns acme
  ∧ (status (state_after (async_update_data resetting) polled) = None
     ∨ status (state_after (async_update_data resetting) polled) = Some ∅).
Proof.
  split; [|split].
  - apply (proj2 (proj1 (proj2
        (proj2 (update_failed_iff_status_empty resetting polled) eq_refl)))).
    left. reflexivity.
  - apply (proj2 (proj2
        (proj2 (update_failed_iff_status_empty (serving acme) polled) eq_refl))
        acme).
    + reflexivity.
    + intros Hempty. apply (f_equal (λ m : Status, m !! "device.mfr")) in Hempty.
      vm_compute in Hempty. discriminate.
  - apply (proj1 (update_failed_iff_status_empty resetting polled)
             "Error fetching UPS state").
    reflexivity.
Defined.

(** C6 fails as stated: with no alias configured and a device list request
    that ends in a connection reset, which [_get_alias] does not handle, the
    status after the cycle is absent and yet the job raises the connection
    reset, not "update failed". *)
Lemma job_raises_reset_with_status_absent :
  status (state_after (async_update_data broken) unnamed) = None
  ∧ result_of (async_update_data broken) unnamed
    = Raises (FromClient ConnectionResetError).
Proof. split; reflexivity. Qed.

Lemma unload_removes_listener_and_handle_witness :
  result_of (async_unload_entry (H := home_assistant) false) loaded
  = Returns false
  ∧ update_listeners
      (entry (state_after (async_unload_entry (H := home_assistant) false) loaded))
    = [].
Proof.
  pose proof (unload_removes_listener_and_handle (H := home_assistant)
                loaded false {[ "0123abcd" := acme_handle ]} acme_handle
                eq_refl eq_refl) as (Hresult & Hlisteners & _).
  split; [exact Hresult | exact Hlisteners].
Defined.

Lemma setup_falls_back_to_entry_id_witness :
  result_of (async_setup_entry (H := home_assistant) (serving no_serial))
    configured
  = Returns true
  ∧ ∃ store handle,
      hass_data (state_after (async_setup_entry (H := home_assistant)
                                (serving no_serial)) configured)
      = Some store
      ∧ store !! "0123abcd" = Some handle
      ∧ PYNUT_UNIQUE_ID handle = "0123abcd".
Proof.
  apply (setup_falls_back_to_entry_id (H := home_assistant)
           (serving no_serial) configured (VStr "ups.local") (VInt 3493) 30
           (state_after (async_update_data (serving no_serial))
              (__init__ (VStr "ups.local") None))
           (log_of (async_update_data (serving no_serial))
              (__init__ (VStr "ups.local") None))
           no_serial);
    reflexivity.
Defined.

End LifecycleFacts.

(** * Further properties of the derivation helpers *)

Module HelpersMore.
Import Py Helpers Spec HelpersFacts.

Lemma first_non_empty_stored (keys : list string) (status : Status) (v : string) :
  first_non_empty keys status = Some v →
  v ≠ "" ∧ ∃ k, In k keys ∧ status !! k = Some v.
Proof.
  induction keys as [|k keys IH]; cbn; [discriminate|].
  destruct (status !! k) as [[|c s]|] eqn:Ek.
  - intros Hv. destruct (IH Hv) as (Hne & k' & Hin & Hk'). eauto.
  - intros [= <-]. split; [discriminate | eauto].
  - intros Hv. destruct (IH Hv) as (Hne & k' & Hin & Hk'). eauto.
Qed.

Lemma first_non_empty_missing (keys : list string) (status : Status) :
  (∀ k, In k keys → status !! k = None) →
  first_non_empty keys status = None.
Proof.
  induction keys as [|k keys IH]; cbn; [reflexivity|].
  intros Hnone. rewrite (Hnone k) by auto. apply IH. auto.
Qed.

Lemma last_in_chain (h : helper) : In (List.last (chain h) "") (chain h).
Proof. destruct h; cbn; auto 10. Qed.

(** A helper gives nothing for a mapping that has none of its keys. *)
Theorem derive_without_keys (h : helper) (status : Status) :
  (∀ k, In k (chain h) → status !! k = None) →
  derive h status = None.
Proof.
  intros Hnone. pose proof (derive_first_non_empty h status) as H.
  rewrite (first_non_empty_missing _ _ Hnone) in H.
  destruct H as [-> _]. apply Hnone, last_in_chain.
Qed.

Lemma derive_without_keys_witness :
  _serial_from_status no_serial = None.
Proof.
  apply (derive_without_keys Serial no_serial).
  intros k [<-|[<-|[]]]; reflexivity.
Defined.

Lemma derive_agree (h : helper) (status status' : Status) :
  (∀ k, In k (chain h) → status !! k = status' !! k) →
  derive h status = derive h status'.
Proof.
  intros Hsame.
  destruct h; cbn [derive];
    unfold _manufacturer_from_status, _model_from_status,
      _firmware_from_status, _serial_from_status;
    rewrite !Hsame by (cbn; tauto); reflexivity.
Qed.

(** A helper reads the keys of its chain and nothing else: two mappings that
    agree on them give the same result. *)
Theorem derive_reads_its_chain_only (h : helper) (status status' : Status) :
  (∀ k, In k (chain h) → status !! k = status' !! k) →
  derive h status = derive h status'.
Proof. exact (derive_agree h status status'). Qed.

Lemma derive_reads_its_chain_only_witness :
  _model_from_status (<["battery.charge" := "100"]> acme)
  = _model_from_status acme.
Proof.
  apply (derive_reads_its_chain_only Model).
  intros k [<-|[<-|[<-|[]]]]; reflexivity.
Defined.

(** The unique id depends on the keys of the manufacturer, model and serial
    chains only; no other key, the firmware keys included, can change it. *)
Theorem unique_id_reads_three_chains_only (status status' : Status) :
  (∀ k, In k (chain Manufacturer ++ chain Model ++ chain Serial) →
        status !! k = status' !! k) →
  _unique_id_from_status status = _unique_id_from_status status'.
Proof.
  intros Hsame.
  assert (Hserial : _serial_from_status status = _serial_from_status status').
  { apply (derive_agree Serial).
    intros k Hk. apply Hsame. cbn in *. tauto. }
  assert (Hmfr : _manufacturer_from_status status
                 = _manufacturer_from_status status').
  { apply (derive_agree Manufacturer).
    intros k Hk. apply Hsame. cbn in *. tauto. }
  assert (Hmodel : _model_from_status status = _model_from_status status').
  { apply (derive_agree Model).
    intros k Hk. apply Hsame. cbn in *. tauto. }
  unfold _unique_id_from_status. rewrite Hserial, Hmfr, Hmodel. reflexivity.
Qed.

Lemma unique_id_reads_three_chains_only_witness :
  _unique_id_from_status (<["ups.firmware" := "2.0"]> acme)
  = _unique_id_from_status acme.
Proof.
  apply unique_id_reads_three_chains_only.
  intros k Hk. cbn in Hk.
  repeat (destruct Hk as [<-|Hk]; [reflexivity|]). contradiction.
Defined.

(** What a helper gives is a value the mapping holds under one of the keys
    of its chain. *)
Theorem derive_gives_a_stored_value (h : helper) (status : Status) (v : string) :
  derive h status = Some v →
  ∃ k, In k (chain h) ∧ status !! k = Some v.
Proof.
  intros Hv. pose proof (derive_first_non_empty h status) as H.
  destruct (first_non_empty (chain h) status) as [w|] eqn:Ew.
  - destruct (first_non_empty_stored _ _ _ Ew) as (_ & k & Hin & Hk).
    exists k. split; [exact Hin|].
    rewrite Hk. rewrite Hv in H.
    destruct h; try (injection H as ->; reflexivity).
    destruct (rejected_serial w); [discriminate | injection H as ->; reflexivity].
  - destruct H as [Hlast _]. exists (List.last (chain h) "").
    split; [apply last_in_chain | congruence].
Qed.

Lemma derive_gives_a_stored_value_witness :
  ∃ k, In k (chain Manufacturer) ∧ empty_first_key !! k = Some "X".
Proof.
  apply (derive_gives_a_stored_value Manufacturer empty_first_key "X").
  reflexivity.
Defined.

(** The serial helper never gives "unknown", in whatever case, and never a
    non-empty string of zeros. *)
Theorem serial_is_never_a_placeholder (status : Status) (s : string) :
  _serial_from_status status = Some s →
  lower s ≠ "unknown" ∧ (s ≠ "" → all_chars "0" s = false).
Proof.
  intros Hs. pose proof (derive_first_non_empty Serial status) as H.
  cbn [derive] in H. rewrite Hs in H.
  destruct (first_non_empty (chain Serial) status) as [w|].
  - unfold rejected_serial in H.
    destruct (String.eqb_spec (lower w) "unknown") as [|Hne];
      [discriminate|].
    destruct (all_chars "0" w) eqn:Hz; [discriminate|].
    injection H as ->. auto.
  - destruct H as [_ [H|H]]; [discriminate|].
    injection H as ->. split; [discriminate | congruence].
Qed.

Lemma serial_is_never_a_placeholder_witness :
  lower "SN123" ≠ "unknown" ∧ ("SN123" ≠ "" → all_chars "0" "SN123" = false).
Proof.
  apply (serial_is_never_a_placeholder acme "SN123"). reflexivity.
Defined.

Lemma append_assoc (a b c : string) : (a +:+ b) +:+ c = a +:+ b +:+ c.
Proof.
  induction a as [|x a IH]; [reflexivity|].
  change (String x ((a +:+ b) +:+ c) = String x (a +:+ b +:+ c)).
  rewrite IH. reflexivity.
Qed.

Lemma append_non_empty (p s : string) : s ≠ "" → p +:+ s ≠ "".
Proof. destruct p; cbn; [auto | discriminate]. Qed.

(** A unique id, when there is one, is not empty and ends with the serial
    the serial helper gives, which is then not empty either. *)
Theorem unique_id_ends_with_serial (status : Status) (u : string) :
  _unique_id_from_status status = Some u →
  u ≠ ""
  ∧ ∃ prefix serial,
      _serial_from_status status = Some serial
      ∧ serial ≠ ""
      ∧ u = prefix +:+ serial.
Proof.
  unfold _unique_id_from_status.
  destruct (_serial_from_status status) as [[|c serial]|]; cbn;
    try discriminate.
  assert (Hne : String c serial ≠ "") by discriminate.
  destruct (_manufacturer_from_status status) as [[|??]|];
    destruct (_model_from_status status) as [[|??]|]; cbn;
    intros [= <-];
    (split; [first [exact Hne | cbn; discriminate]|]);
    first
      [ exists "", (String c serial); repeat split; exact Hne
      | eexists _, (String c serial);
        split; [reflexivity|]; split; [exact Hne|];
        rewrite <- !append_assoc; reflexivity ].
Qed.

Lemma unique_id_ends_with_serial_witness :
  "Acme_X1_SN123" ≠ ""
  ∧ ∃ prefix serial,
      _serial_from_status acme = Some serial
      ∧ serial ≠ ""
      ∧ "Acme_X1_SN123" = prefix +:+ serial.
Proof.
  apply (unique_id_ends_with_serial acme "Acme_X1_SN123"). reflexivity.
Defined.

End HelpersMore.

(** * Further properties of the data fetcher *)

Module FetcherMore.
Import Py Helpers Run Fetcher Spec FetcherFacts.

Lemma run_parts {S V E A} (m : M S V E A) (s : S) :
  m s = (state_after m s, log_of m s, result_of m s).
Proof. unfold state_after, log_of, result_of. destruct (m s) as [[??]?]. reflexivity. Qed.

Lemma update_keeps_alias
    (_client : PyNUTClient) (self self' : PyNUTData) (log : list event)
    (r : outcome client_exn unit) (a : cfgval) :
  _alias self = Some a →
  update _client self = (self', log, r) →
  _alias self' = Some a ∧ ∀ u, ¬ In (ListUps u) log.
Proof.
  intros Ha Hu.
  run_update Hu; try congruence; injection Hu as <- <- <-;
    (split; [cbn; congruence | intros u Hin; in_log Hin]).
Qed.

Lemma update_finds_alias
    (_client : PyNUTClient) (self self' : PyNUTData) (log : list event)
    (r : outcome client_exn unit) (first description : string) (others : UpsList) :
  _alias self = None →
  list_ups _client = Returns ((first, description) :: others) →
  update _client self = (self', log, r) →
  _alias self' = Some (VStr first).
Proof.
  intros Hnone Hups Hu.
  run_update Hu; try congruence; injection Hu as <- <- <-;
    cbn; congruence.
Qed.

Lemma update_alias_still_unset
    (_client : PyNUTClient) (self self' : PyNUTData) (log : list event)
    (r : outcome client_exn unit) :
  _alias self = None →
  (∃ msg, list_ups _client = Raises (PyNUTError msg))
  ∨ list_ups _client = Returns [] →
  update _client self = (self', log, r) →
  _alias self' = None.
Proof.
  intros Hnone Hfail Hu.
  run_update Hu; try congruence; injection Hu as <- <- <-;
    destruct Hfail as [[? Hfail]|Hfail]; try discriminate Hfail;
    cbn; congruence.
Qed.

Lemma update_lists_first
    (_client : PyNUTClient) (self self' : PyNUTData) (log : list event)
    (r : outcome client_exn unit) :
  _alias self = None →
  update _client self = (self', log, r) →
  ∃ rest, log = ListUps (list_ups _client) :: rest.
Proof.
  intros Hnone Hu.
  run_update Hu; try congruence; injection Hu as <- <- <-;
    eexists; reflexivity.
Qed.

(** With an alias configured an update asks for the variables of that
    alias first, never asks for the device list, and changes nothing of the
    fetcher but its status. *)
Theorem update_with_alias_touches_status_only
    (_client : PyNUTClient) (self self' : PyNUTData) (log : list event)
    (r : outcome client_exn unit) (a : cfgval) :
  _alias self = Some a →
  update _client self = (self', log, r) →
  (∃ rest, log = ListVars (Some a) (list_vars _client (Some a)) :: rest)
  ∧ (∀ u, ¬ In (ListUps u) log)
  ∧ set_status (_status self) self' = self.
Proof.
  intros Ha Hu. destruct self as [host alias ups st]. cbn in Ha. subst alias.
  run_update Hu; try discriminate; injection Hu as <- <- <-;
    (split; [eexists; reflexivity|]);
    (split; [intros u Hin; in_log Hin | reflexivity]).
Qed.

Lemma update_with_alias_touches_status_only_witness :
  set_status (_status polled) (state_after (update resetting) polled) = polled.
Proof.
  apply (update_with_alias_touches_status_only resetting polled
           (state_after (update resetting) polled)
           (log_of (update resetting) polled)
           (result_of (update resetting) polled)
           (VStr "ups1")).
  - reflexivity.
  - reflexivity.
Defined.

(** When the variable request of an update returns a mapping, the update
    returns and the status is that mapping, whatever it was before: a
    snapshot is replaced, not merged. *)
Theorem successful_update_replaces_status
    (_client : PyNUTClient) (self self' : PyNUTData) (log : list event)
    (r : outcome client_exn unit) (alias : option cfgval) (vars : Status) :
  update _client self = (self', log, r) →
  In (ListVars alias (Returns vars)) log →
  status self' = Some vars ∧ r = Returns tt.
Proof.
  intros Hu Hin.
  run_update Hu; injection Hu as <- <- <-; in_log Hin;
    try (injection Hin as <- <-); cbn in *; auto.
Qed.

Lemma successful_update_replaces_status_witness :
  status (state_after (update (serving no_serial)) polled) = Some no_serial.
Proof.
  apply (successful_update_replaces_status (serving no_serial) polled
           (state_after (update (serving no_serial)) polled)
           (log_of (update (serving no_serial)) polled)
           (result_of (update (serving no_serial)) polled)
           (Some (VStr "ups1")) no_serial).
  - reflexivity.
  - left. reflexivity.
Defined.

(** With no alias configured and a server that lists devices, an update
    takes the first listed device as alias, keeps the list, and asks for the
    variables of that device in the same cycle. *)
Theorem alias_is_first_listed_device
    (_client : PyNUTClient) (self self' : PyNUTData) (log : list event)
    (r : outcome client_exn unit) (first description : string) (others : UpsList) :
  _alias self = None →
  list_ups _client = Returns ((first, description) :: others) →
  update _client self = (self', log, r) →
  _alias self' = Some (VStr first)
  ∧ ups_list self' = Some ((first, description) :: others)
  ∧ In (ListVars (Some (VStr first)) (list_vars _client (Some (VStr first)))) log.
Proof.
  intros Hnone Hups Hu.
  run_update Hu; try congruence; injection Hu as <- <- <-;
    injection Hups as <- <- <-; cbn;
    repeat match goal with
      | E : list_vars _ _ = _ |- _ => rewrite E; clear E
      end;
    auto 10.
Qed.

Lemma alias_is_first_listed_device_witness :
  _alias (state_after (update (serving acme)) unnamed) = Some (VStr "ups1").
Proof.
  apply (alias_is_first_listed_device (serving acme) unnamed
           (state_after (update (serving acme)) unnamed)
           (log_of (update (serving acme)) unnamed)
           (result_of (update (serving acme)) unnamed)
           "ups1" "Rack UPS" []).
  - reflexivity.
  - reflexivity.
  - reflexivity.
Defined.

(** The device list is asked for once: after an update that found an
    alias, a later update, against whatever server, does not ask for the
    list again and keeps the alias. *)
Theorem alias_discovery_happens_once
    (first_cycle later_cycle : PyNUTClient) (self : PyNUTData)
    (first description : string) (others : UpsList) :
  _alias self = None →
  list_ups first_cycle = Returns ((first, description) :: others) →
  _alias (state_after (update later_cycle)
            (state_after (update first_cycle) self))
  = Some (VStr first)
  ∧ ∀ u, ¬ In (ListUps u)
             (log_of (update later_cycle)
                (state_after (update first_cycle) self)).
Proof.
  intros Hnone Hups.
  apply (update_keeps_alias later_cycle
           (state_after (update first_cycle) self) _ _
           (result_of (update later_cycle)
              (state_after (update first_cycle) self))).
  - apply (update_finds_alias first_cycle self _
             (log_of (update first_cycle) self)
             (result_of (update first_cycle) self)
             first description others Hnone Hups).
    apply run_parts.
  - apply run_parts.
Qed.

Lemma alias_discovery_happens_once_witness :
  _alias (state_after (update resetting)
            (state_after (update (serving acme)) unnamed))
  = Some (VStr "ups1").
Proof.
  apply (alias_discovery_happens_once (serving acme) resetting unnamed
           "ups1" "Rack UPS" []).
  - reflexivity.
  - reflexivity.
Defined.

(** A discovery that failed is tried again: after an update in which the
    device list request raised a protocol error or gave no device, the next
    update starts with the device list request again. *)
Theorem failed_discovery_is_retried
    (first_cycle later_cycle : PyNUTClient) (self : PyNUTData) :
  _alias self = None →
  (∃ msg, list_ups first_cycle = Raises (PyNUTError msg))
  ∨ list_ups first_cycle = Returns [] →
  ∃ rest,
    log_of (update later_cycle) (state_after (update first_cycle) self)
    = ListUps (list_ups later_cycle) :: rest.
Proof.
  intros Hnone Hfail.
  apply (update_lists_first later_cycle
           (state_after (update first_cycle) self)
           (state_after (update later_cycle)
              (state_after (update first_cycle) self))
           _
           (result_of (update later_cycle)
              (state_after (update first_cycle) self))).
  - apply (update_alias_still_unset first_cycle self _
             (log_of (update first_cycle) self)
             (result_of (update first_cycle) self) Hnone Hfail).
    apply run_parts.
  - apply run_parts.
Qed.

Lemma failed_discovery_is_retried_witness :
  ∃ rest,
    log_of (update (serving acme)) (state_after (update no_devices) unnamed)
    = ListUps (list_ups (serving acme)) :: rest.
Proof.
  apply (failed_discovery_is_retried no_devices (serving acme) unnamed).
  - reflexivity.
  - right. reflexivity.
Defined.

(** An exception of the variable request that the fetcher does not handle
    leaves the update with that exception, and the status is the snapshot
    of before. *)
Theorem unhandled_error_keeps_snapshot
    (_client : PyNUTClient) (self self' : PyNUTData) (log : list event)
    (r : outcome client_exn unit) (alias : option cfgval) (name : string) :
  update _client self = (self', log, r) →
  In (ListVars alias (Raises (OtherError name))) log →
  r = Raises (OtherError name) ∧ status self' = status self.
Proof.
  intros Hu Hin.
  run_update Hu; injection Hu as <- <- <-; in_log Hin;
    try (injection Hin as <- <-); cbn in *; auto.
Qed.

(** With no alias configured, an exception of the device list request
    other than a protocol error leaves the update with that exception
    before any variable request, and the fetcher is unchanged. *)
Theorem unhandled_list_error_stops_update
    (_client : PyNUTClient) (self self' : PyNUTData) (log : list event)
    (r : outcome client_exn unit) (e : client_exn) :
  _alias self = None →
  list_ups _client = Raises e →
  (∀ msg, e ≠ PyNUTError msg) →
  update _client self = (self', log, r) →
  r = Raises e ∧ self' = self ∧ log = [ListUps (Raises e)].
Proof.
  intros Hnone Hups Hnot Hu.
  run_update Hu; try congruence; injection Hu as <- <- <-;
    inversion Hups; subst; auto.
Qed.

(** An update never raises a protocol error; with an alias configured it
    does not raise a connection reset either. *)
Theorem update_never_raises_protocol_error
    (_client : PyNUTClient) (self self' : PyNUTData) (log : list event)
    (e : client_exn) :
  update _client self = (self', log, Raises e) →
  (∀ msg, e ≠ PyNUTError msg)
  ∧ (is_Some (_alias self) → e ≠ ConnectionResetError).
Proof.
  intros Hu.
  run_update Hu; injection Hu as <- <- Hr; try discriminate Hr;
    subst e;
    (split; [intros ?; discriminate | intros [? Hs]; discriminate]).
Qed.

Lemma unhandled_error_keeps_snapshot_witness :
  result_of (update broken) polled = Raises (OtherError "UnicodeDecodeError")
  ∧ status (state_after (update broken) polled) = status polled.
Proof.
  apply (unhandled_error_keeps_snapshot broken polled
           (state_after (update broken) polled)
           (log_of (update broken) polled)
           (result_of (update broken) polled)
           (Some (VStr "ups1")) "UnicodeDecodeError").
  - reflexivity.
  - left. reflexivity.
Defined.

Lemma unhandled_list_error_stops_update_witness :
  result_of (update broken) unnamed = Raises ConnectionResetError
  ∧ state_after (update broken) unnamed = unnamed
  ∧ log_of (update broken) unnamed = [ListUps (Raises ConnectionResetError)].
Proof.
  apply (unhandled_list_error_stops_update broken unnamed
           (state_after (update broken) unnamed)
           (log_of (update broken) unnamed)
           (result_of (update broken) unnamed)
           ConnectionResetError).
  - reflexivity.
  - reflexivity.
  - intros msg. discriminate.
  - reflexivity.
Defined.

Lemma update_never_raises_protocol_error_witness :
  (∀ msg, OtherError "UnicodeDecodeError" ≠ PyNUTError msg)
  ∧ (is_Some (_alias polled) →
     OtherError "UnicodeDecodeError" ≠ ConnectionResetError).
Proof.
  apply (update_never_raises_protocol_error broken polled
           (state_after (update broken) polled)
           (log_of (update broken) polled)
           (OtherError "UnicodeDecodeError")).
  reflexivity.
Defined.

End FetcherMore.

(** * Further properties of setup, polling and unload *)

Module LifecycleMore.
Import Py Helpers Run Fetcher Lifecycle Spec FetcherFacts LifecycleFacts FetcherMore.

Section more.
Context `{Constants}.

(** The whole run of a setup that gets through its initial refresh. *)
Lemma setup_success
    (_client : PyNUTClient) (hass : HomeAssistant) (host port : cfgval)
    (seconds : Z) (data1 : PyNUTData) (log : list event) (st : Status) :
  data (entry hass) !! CONF_HOST = Some host →
  data (entry hass) !! CONF_PORT = Some port →
  timedelta
    (default DEFAULT_SCAN_INTERVAL
       (options (entry (state_after strip_stale_options hass))
        !! CONF_SCAN_INTERVAL))
  = inr seconds →
  async_update_data _client (__init__ host (data (entry hass) !! CONF_ALIAS))
  = (data1, log, Returns st) →
  async_setup_entry _client hass
  = (set_hass_data
       (Some (<[entry_id (entry hass) :=
                {| COORDINATOR :=
                     {| coordinator_name := "NUT resource status";
                        update_interval := seconds;
                        coordinator_data := st |};
                   PYNUT_DATA := data1;
                   PYNUT_UNIQUE_ID :=
                     default (entry_id (entry hass)) (_unique_id_from_status st);
                   PYNUT_MANUFACTURER := _manufacturer_from_status st;
                   PYNUT_MODEL := _model_from_status st;
                   PYNUT_FIRMWARE := _firmware_from_status st;
                   UNDO_UPDATE_LISTENER := "_async_update_listener" |}]>
                (default ∅ (hass_data hass))))
       (set_entry
          (set_update_listeners
             (update_listeners (entry hass) ++ ["_async_update_listener"])
             (entry (state_after strip_stale_options hass)))
          (state_after strip_stale_options hass)),
     (Fetch <$> log) ++ [SetupPlatforms (entry_id (entry hass)) PLATFORMS],
     Returns true).
Proof.
  intros Hhost Hport Hinterval Hrefresh.
  destruct (strip_keeps hass) as (Hid & Hdata & Hstore).
  assert (Hlisteners :
    update_listeners (entry (state_after strip_stale_options hass))
    = update_listeners (entry hass)).
  { unfold state_after, strip_stale_options, bind, get, async_update_entry,
      modify, ret.
    case_bool_decide; reflexivity. }
  unfold async_setup_entry, bind.
  rewrite strip_run. cbn [get].
  rewrite Hdata. unfold subscript. rewrite Hhost, Hport. cbn [ret].
  rewrite Hinterval. cbn [ret].
  unfold async_config_entry_first_refresh. rewrite Hrefresh.
  cbn. rewrite Hid, Hstore, Hlisteners.
  destruct (_unique_id_from_status st); cbn; rewrite ?app_nil_r; reflexivity.
Qed.


(** The periodic job never returns an empty status: what it returns is the
    non-empty mapping the fetcher holds afterwards. *)
Theorem job_returns_the_fetched_status
    (_client : PyNUTClient) (data : PyNUTData) (st : Status) :
  result_of (async_update_data _client) data = Returns st →
  st ≠ ∅
  ∧ status (state_after (async_update_data _client) data) = Some st
  ∧ result_of (update _client) data = Returns tt.
Proof.
  unfold result_of, state_after, async_update_data, bind, map_exn, get.
  destruct (update _client data) as [[data1 log] [[]|e]]; cbn;
    [|discriminate].
  destruct (status data1) as [st1|] eqn:Estatus; cbn; [|discriminate].
  case_bool_decide as Hempty; cbn; [discriminate|].
  intros [= <-]. split; [exact Hempty | split; [exact Estatus | reflexivity]].
Qed.



(** Setup of an entry whose data lacks the host, or the port, raises
    [KeyError] for that key: the server is not contacted and nothing is
    stored or registered, but the stale option is already stripped. *)
Theorem setup_needs_host_and_port
    (_client : PyNUTClient) (hass : HomeAssistant) :
  (data (entry hass) !! CONF_HOST = None →
   async_setup_entry _client hass
   = (state_after strip_stale_options hass, [], Raises (KeyError CONF_HOST)))
  ∧ (is_Some (data (entry hass) !! CONF_HOST) →
     data (entry hass) !! CONF_PORT = None →
     async_setup_entry _client hass
     = (state_after strip_stale_options hass, [], Raises (KeyError CONF_PORT))).
Proof.
  destruct (strip_keeps hass) as (Hid & Hdata & Hstore).
  split.
  - intros Hhost. unfold async_setup_entry, bind.
    rewrite strip_run. cbn [get]. rewrite Hdata. unfold subscript.
    rewrite Hhost. reflexivity.
  - intros [host Hhost] Hport. unfold async_setup_entry, bind.
    rewrite strip_run. cbn [get]. rewrite Hdata. unfold subscript.
    rewrite Hhost, Hport. reflexivity.
Qed.

(** A scan interval the interval constructor refuses makes setup raise the
    constructor's exception before the server is contacted. *)
Theorem setup_rejects_scan_interval
    (_client : PyNUTClient) (hass : HomeAssistant) (name : string) :
  is_Some (data (entry hass) !! CONF_HOST) →
  is_Some (data (entry hass) !! CONF_PORT) →
  timedelta
    (default DEFAULT_SCAN_INTERVAL
       (options (entry (state_after strip_stale_options hass))
        !! CONF_SCAN_INTERVAL))
  = inl name →
  async_setup_entry _client hass
  = (state_after strip_stale_options hass, [], Raises (FromLibrary name)).
Proof.
  intros [host Hhost] [port Hport] Hinterval.
  destruct (strip_keeps hass) as (Hid & Hdata & Hstore).
  unfold async_setup_entry, bind.
  rewrite strip_run. cbn [get]. rewrite Hdata. unfold subscript.
  rewrite Hhost, Hport. cbn [ret]. rewrite Hinterval. reflexivity.
Qed.

(** When the initial refresh fails setup fails with "config entry not
    ready": apart from the stripped option the host is unchanged, so no
    handle is stored, no listener registered and no platform set up. *)
Theorem setup_fails_with_the_first_refresh
    (_client : PyNUTClient) (hass : HomeAssistant) (host port : cfgval)
    (seconds : Z) (data1 : PyNUTData) (log : list event) (e : exn) :
  data (entry hass) !! CONF_HOST = Some host →
  data (entry hass) !! CONF_PORT = Some port →
  timedelta
    (default DEFAULT_SCAN_INTERVAL
       (options (entry (state_after strip_stale_options hass))
        !! CONF_SCAN_INTERVAL))
  = inr seconds →
  async_update_data _client (__init__ host (data (entry hass) !! CONF_ALIAS))
  = (data1, log, Raises e) →
  async_setup_entry _client hass
  = (state_after strip_stale_options hass, Fetch <$> log,
     Raises ConfigEntryNotReady).
Proof.
  intros Hhost Hport Hinterval Hrefresh.
  destruct (strip_keeps hass) as (Hid & Hdata & Hstore).
  unfold async_setup_entry, bind.
  rewrite strip_run. cbn [get]. rewrite Hdata. unfold subscript.
  rewrite Hhost, Hport. cbn [ret]. rewrite Hinterval. cbn [ret].
  unfold async_config_entry_first_refresh. rewrite Hrefresh.
  cbn. rewrite app_nil_r. reflexivity.
Qed.

(** With an alias configured, a server that answers the variable request
    with a protocol error, a connection reset or an empty mapping makes
    setup fail with "config entry not ready", leaving the host as the
    stripping of the stale option left it. *)
Theorem setup_fails_without_data
    (_client : PyNUTClient) (hass : HomeAssistant) (host port alias : cfgval)
    (seconds : Z) :
  data (entry hass) !! CONF_HOST = Some host →
  data (entry hass) !! CONF_PORT = Some port →
  data (entry hass) !! CONF_ALIAS = Some alias →
  timedelta
    (default DEFAULT_SCAN_INTERVAL
       (options (entry (state_after strip_stale_options hass))
        !! CONF_SCAN_INTERVAL))
  = inr seconds →
  (∃ e, list_vars _client (Some alias) = Raises e ∧ caught e)
  ∨ list_vars _client (Some alias) = Returns ∅ →
  result_of (async_setup_entry _client) hass = Raises ConfigEntryNotReady
  ∧ state_after (async_setup_entry _client) hass
    = state_after strip_stale_options hass.
Proof.
  intros Hhost Hport Halias Hinterval Hserver.
  destruct (strip_keeps hass) as (Hid & Hdata & Hstore).
  unfold result_of, state_after at 1, async_setup_entry, bind.
  rewrite strip_run. cbn [get]. rewrite Hdata. unfold subscript.
  rewrite Hhost, Hport. cbn [ret]. rewrite Hinterval. cbn [ret].
  rewrite Halias.
  unfold async_config_entry_first_refresh, async_update_data, update,
    _get_status, call_list_vars, bind, map_exn, try_except, get, modify,
    ret, emit, __init__.
  cbn.
  destruct Hserver as [(e & -> & Hc)| ->].
  - destruct e; cbn in Hc; [| |contradiction]; cbn; auto.
  - cbn. auto.
Qed.

(** A setup that gets through its initial refresh returns [True], registers
    the options listener once more, leaves the handles of other entries as
    they were, and asks for the platforms last, after the requests of the
    refresh. *)
Theorem setup_registers_and_keeps_others
    (_client : PyNUTClient) (hass : HomeAssistant) (host port : cfgval)
    (seconds : Z) (data1 : PyNUTData) (log : list event) (st : Status) :
  data (entry hass) !! CONF_HOST = Some host →
  data (entry hass) !! CONF_PORT = Some port →
  timedelta
    (default DEFAULT_SCAN_INTERVAL
       (options (entry (state_after strip_stale_options hass))
        !! CONF_SCAN_INTERVAL))
  = inr seconds →
  async_update_data _client (__init__ host (data (entry hass) !! CONF_ALIAS))
  = (data1, log, Returns st) →
  result_of (async_setup_entry _client) hass = Returns true
  ∧ update_listeners (entry (state_after (async_setup_entry _client) hass))
    = update_listeners (entry hass) ++ ["_async_update_listener"]
  ∧ log_of (async_setup_entry _client) hass
    = (Fetch <$> log) ++ [SetupPlatforms (entry_id (entry hass)) PLATFORMS]
  ∧ ∃ store,
      hass_data (state_after (async_setup_entry _client) hass) = Some store
      ∧ ∀ k, k ≠ entry_id (entry hass) →
             store !! k = default ∅ (hass_data hass) !! k.
Proof.
  intros Hhost Hport Hinterval Hrefresh.
  unfold result_of, state_after at 1 2, log_of.
  rewrite (setup_success _client hass host port seconds data1 log st
             Hhost Hport Hinterval Hrefresh).
  cbn. repeat (split; [reflexivity|]).
  eexists. split; [reflexivity|].
  intros k Hk. apply lookup_insert_ne. congruence.
Qed.

(** The device metadata a successful setup stores is derived from the
    status of the initial refresh: manufacturer, model, firmware, and the
    unique id when one can be derived. *)
Theorem setup_stores_derived_metadata
    (_client : PyNUTClient) (hass : HomeAssistant) (host port : cfgval)
    (seconds : Z) (data1 : PyNUTData) (log : list event) (st : Status) :
  data (entry hass) !! CONF_HOST = Some host →
  data (entry hass) !! CONF_PORT = Some port →
  timedelta
    (default DEFAULT_SCAN_INTERVAL
       (options (entry (state_after strip_stale_options hass))
        !! CONF_SCAN_INTERVAL))
  = inr seconds →
  async_update_data _client (__init__ host (data (entry hass) !! CONF_ALIAS))
  = (data1, log, Returns st) →
  ∃ store handle,
    hass_data (state_after (async_setup_entry _client) hass) = Some store
    ∧ store !! entry_id (entry hass) = Some handle
    ∧ PYNUT_MANUFACTURER handle = _manufacturer_from_status st
    ∧ PYNUT_MODEL handle = _model_from_status st
    ∧ PYNUT_FIRMWARE handle = _firmware_from_status st
    ∧ (∀ unique_id, _unique_id_from_status st = Some unique_id →
                    PYNUT_UNIQUE_ID handle = unique_id)
    ∧ UNDO_UPDATE_LISTENER handle = "_async_update_listener".
Proof.
  intros Hhost Hport Hinterval Hrefresh.
  unfold state_after at 1.
  rewrite (setup_success _client hass host port seconds data1 log st
             Hhost Hport Hinterval Hrefresh).
  cbn. eexists _, _. split; [reflexivity|].
  split; [apply lookup_insert_eq|].
  cbn. repeat (split; [reflexivity|]).
  split; [|reflexivity].
  intros unique_id ->. reflexivity.
Qed.

(** The interval of the coordinator is read from the scan interval
    option, the default when the option is unset; stripping the stale
    option does not change what is read. *)
Theorem setup_reads_scan_interval
    (_client : PyNUTClient) (hass : HomeAssistant) (host port : cfgval)
    (seconds : Z) (data1 : PyNUTData) (log : list event) (st : Status) :
  CONF_SCAN_INTERVAL ≠ CONF_RESOURCES →
  data (entry hass) !! CONF_HOST = Some host →
  data (entry hass) !! CONF_PORT = Some port →
  timedelta
    (default DEFAULT_SCAN_INTERVAL (options (entry hass) !! CONF_SCAN_INTERVAL))
  = inr seconds →
  async_update_data _client (__init__ host (data (entry hass) !! CONF_ALIAS))
  = (data1, log, Returns st) →
  ∃ store handle,
    hass_data (state_after (async_setup_entry _client) hass) = Some store
    ∧ store !! entry_id (entry hass) = Some handle
    ∧ update_interval (COORDINATOR handle) = seconds.
Proof.
  intros Hkeys Hhost Hport Hinterval Hrefresh.
  assert (Hstripped :
    timedelta
      (default DEFAULT_SCAN_INTERVAL
         (options (entry (state_after strip_stale_options hass))
          !! CONF_SCAN_INTERVAL))
    = inr seconds).
  { rewrite stripped_lookup.
    destruct (decide (CONF_SCAN_INTERVAL = CONF_RESOURCES));
      [contradiction | exact Hinterval]. }
  unfold state_after at 1.
  rewrite (setup_success _client hass host port seconds data1 log st
             Hhost Hport Hstripped Hrefresh).
  cbn. eexists _, _. split; [reflexivity|].
  split; [apply lookup_insert_eq | reflexivity].
Qed.

Lemma remove_listener_last (listener : string) (l : list string) :
  ¬ In listener l → remove_listener listener (l ++ [listener]) = l.
Proof.
  induction l as [|x l IH]; cbn.
  - intros _. rewrite String.eqb_refl. reflexivity.
  - intros Hnot. destruct (String.eqb_spec x listener) as [->|Hne].
    + exfalso. apply Hnot. left. reflexivity.
    + rewrite IH by tauto. reflexivity.
Qed.

(** Unloading, with the platforms torn down, an entry that was just set up
    undoes what setup stored and registered: the handle is gone, the
    handles of other entries are those of before setup, and the options
    listener is registered as often as before setup (the list of listeners
    is the one of before when the listener was not in it). *)
Theorem unload_undoes_setup
    (_client : PyNUTClient) (hass : HomeAssistant) (host port : cfgval)
    (seconds : Z) (data1 : PyNUTData) (log : list event) (st : Status) :
  data (entry hass) !! CONF_HOST = Some host →
  data (entry hass) !! CONF_PORT = Some port →
  timedelta
    (default DEFAULT_SCAN_INTERVAL
       (options (entry (state_after strip_stale_options hass))
        !! CONF_SCAN_INTERVAL))
  = inr seconds →
  async_update_data _client (__init__ host (data (entry hass) !! CONF_ALIAS))
  = (data1, log, Returns st) →
  result_of (async_unload_entry true)
    (state_after (async_setup_entry _client) hass)
  = Returns true
  ∧ hass_data (state_after (async_unload_entry true)
                 (state_after (async_setup_entry _client) hass))
    = Some (delete (entry_id (entry hass)) (default ∅ (hass_data hass)))
  ∧ count_occ String.string_dec
      (update_listeners
         (entry (state_after (async_unload_entry true)
                   (state_after (async_setup_entry _client) hass))))
      "_async_update_listener"
    = count_occ String.string_dec (update_listeners (entry hass))
        "_async_update_listener"
  ∧ (¬ In "_async_update_listener" (update_listeners (entry hass)) →
     update_listeners
       (entry (state_after (async_unload_entry true)
                 (state_after (async_setup_entry _client) hass)))
     = update_listeners (entry hass)).
Proof.
  intros Hhost Hport Hinterval Hrefresh.
  destruct (strip_keeps hass) as (Hid & Hdata & Hstore).
  pose proof (f_equal (λ t, t.1.1)
                (setup_success _client hass host port seconds data1 log st
                   Hhost Hport Hinterval Hrefresh)) as Hsetup.
  cbn beta iota delta [fst] in Hsetup.
  unfold result_of, state_after. rewrite Hsetup.
  unfold async_unload_entry, subscript, call_undo, bind, get, modify, emit,
    ret, raise.
  cbn. rewrite Hid, lookup_insert_eq. cbn.
  split; [reflexivity|]. split; [rewrite delete_insert_eq; reflexivity|].
  split.
  - rewrite remove_listener_count, count_occ_app.
    rewrite (count_occ_cons_eq String.string_dec [] eq_refl).
    cbn [count_occ]. lia.
  - apply remove_listener_last.
Qed.

(** Unloading an entry that has no handle raises [KeyError], for the
    domain when nothing of the domain is stored and for the entry id
    otherwise; the platform teardown was asked for before, and the listeners
    and the store are untouched. *)
Theorem unload_without_handle (hass : HomeAssistant) (unload_ok : bool) :
  (hass_data hass = None →
   async_unload_entry unload_ok hass
   = (hass, [UnloadPlatforms (entry_id (entry hass)) PLATFORMS unload_ok],
      Raises (KeyError DOMAIN)))
  ∧ (∀ store, hass_data hass = Some store →
              store !! entry_id (entry hass) = None →
              async_unload_entry unload_ok hass
              = (hass,
                 [UnloadPlatforms (entry_id (entry hass)) PLATFORMS unload_ok],
                 Raises (KeyError (entry_id (entry hass))))).
Proof.
  unfold async_unload_entry, subscript, call_undo, bind, get, modify, emit,
    ret, raise.
  split.
  - intros ->. reflexivity.
  - intros store -> Hnone. cbn. rewrite Hnone. reflexivity.
Qed.

(** Unload is not to be repeated: after an unload that removed the handle,
    a second unload raises [KeyError] for the entry id and changes nothing. *)
Theorem second_unload_raises
    (hass : HomeAssistant) (unload_ok : bool)
    (store : gmap string Handle) (handle : Handle) :
  hass_data hass = Some store →
  store !! entry_id (entry hass) = Some handle →
  async_unload_entry unload_ok (state_after (async_unload_entry true) hass)
  = (state_after (async_unload_entry true) hass,
     [UnloadPlatforms (entry_id (entry hass)) PLATFORMS unload_ok],
     Raises (KeyError (entry_id (entry hass)))).
Proof.
  intros Hstore Hhandle.
  unfold state_after, async_unload_entry, subscript, call_undo, bind, get,
    modify, emit, ret, raise.
  cbn. rewrite Hstore. cbn. rewrite Hhandle. cbn.
  rewrite lookup_delete_eq. reflexivity.
Qed.

End more.

Lemma job_returns_the_fetched_status_witness :
  acme ≠ ∅
  ∧ status (state_after (async_update_data (serving acme)) polled) = Some acme
  ∧ result_of (update (serving acme)) polled = Returns tt.
Proof.
  apply (job_returns_the_fetched_status (serving acme) polled acme).
  reflexivity.
Defined.



Lemma setup_needs_host_and_port_witness :
  async_setup_entry (H := home_assistant) (serving acme) unconfigured
  = (state_after (strip_stale_options (H := home_assistant)) unconfigured, [],
     Raises (KeyError "host")).
Proof.
  apply (proj1 (setup_needs_host_and_port (H := home_assistant)
                  (serving acme) unconfigured)).
  reflexivity.
Defined.

Lemma setup_rejects_scan_interval_witness :
  async_setup_entry (H := home_assistant) (serving acme) misconfigured
  = (state_after (strip_stale_options (H := home_assistant)) misconfigured, [],
     Raises (FromLibrary "TypeError")).
Proof.
  apply (setup_rejects_scan_interval (H := home_assistant)
           (serving acme) misconfigured "TypeError").
  - exists (VStr "ups.local"). reflexivity.
  - exists (VInt 3493). reflexivity.
  - reflexivity.
Defined.

Lemma setup_fails_with_the_first_refresh_witness :
  result_of (async_setup_entry (H := home_assistant) resetting) configured
  = Raises ConfigEntryNotReady.
Proof.
  unfold result_of.
  rewrite (setup_fails_with_the_first_refresh (H := home_assistant)
             resetting configured (VStr "ups.local") (VInt 3493) 30
             (state_after (async_update_data resetting)
                (__init__ (VStr "ups.local") None))
             (log_of (async_update_data resetting)
                (__init__ (VStr "ups.local") None))
             (UpdateFailed "Error fetching UPS state")
             eq_refl eq_refl eq_refl eq_refl).
  reflexivity.
Defined.

Lemma setup_fails_without_data_witness :
  result_of (async_setup_entry (H := home_assistant) resetting) aliased
  = Raises ConfigEntryNotReady
  ∧ state_after (async_setup_entry (H := home_assistant) resetting) aliased
    = state_after (strip_stale_options (H := home_assistant)) aliased.
Proof.
  apply (setup_fails_without_data (H := home_assistant) resetting aliased
           (VStr "ups.local") (VInt 3493) (VStr "ups1") 60).
  - reflexivity.
  - reflexivity.
  - reflexivity.
  - reflexivity.
  - left. exists ConnectionResetError. split; [reflexivity | exact I].
Defined.

Lemma setup_registers_and_keeps_others_witness :
  result_of (async_setup_entry (H := home_assistant) (serving acme)) configured
  = Returns true
  ∧ update_listeners
      (entry (state_after (async_setup_entry (H := home_assistant)
                             (serving acme)) configured))
    = ["_async_update_listener"].
Proof.
  pose proof (setup_registers_and_keeps_others (H := home_assistant)
                (serving acme) configured (VStr "ups.local") (VInt 3493) 30
                (state_after (async_update_data (serving acme))
                   (__init__ (VStr "ups.local") None))
                (log_of (async_update_data (serving acme))
                   (__init__ (VStr "ups.local") None))
                acme eq_refl eq_refl eq_refl eq_refl)
    as (Hresult & Hlisteners & _).
  split; [exact Hresult | exact Hlisteners].
Defined.

Lemma setup_stores_derived_metadata_witness :
  ∃ store handle,
    hass_data (state_after (async_setup_entry (H := home_assistant)
                              (serving acme)) configured)
    = Some store
    ∧ store !! "0123abcd" = Some handle
    ∧ PYNUT_MANUFACTURER handle = Some "Acme"
    ∧ PYNUT_MODEL handle = Some "X1"
    ∧ PYNUT_FIRMWARE handle = None
    ∧ (∀ unique_id, _unique_id_from_status acme = Some unique_id →
                    PYNUT_UNIQUE_ID handle = unique_id)
    ∧ UNDO_UPDATE_LISTENER handle = "_async_update_listener".
Proof.
  apply (setup_stores_derived_metadata (H := home_assistant)
           (serving acme) configured (VStr "ups.local") (VInt 3493) 30
           (state_after (async_update_data (serving acme))
              (__init__ (VStr "ups.local") None))
           (log_of (async_update_data (serving acme))
              (__init__ (VStr "ups.local") None))
           acme);
    reflexivity.
Defined.

Lemma setup_reads_scan_interval_witness :
  ∃ store handle,
    hass_data (state_after (async_setup_entry (H := home_assistant)
                              (serving acme)) aliased)
    = Some store
    ∧ store !! "0123abcd" = Some handle
    ∧ update_interval (COORDINATOR handle) = 60%Z.
Proof.
  apply (setup_reads_scan_interval (H := home_assistant)
           (serving acme) aliased (VStr "ups.local") (VInt 3493) 60
           (state_after (async_update_data (serving acme))
              (__init__ (VStr "ups.local") (Some (VStr "ups1"))))
           (log_of (async_update_data (serving acme))
              (__init__ (VStr "ups.local") (Some (VStr "ups1"))))
           acme);
    [discriminate | reflexivity ..].
Defined.

Lemma unload_undoes_setup_witness :
  hass_data (state_after (async_unload_entry (H := home_assistant) true)
               (state_after (async_setup_entry (H := home_assistant)
                               (serving acme)) configured))
  = Some (delete "0123abcd" ∅).
Proof.
  apply (unload_undoes_setup (H := home_assistant)
           (serving acme) configured (VStr "ups.local") (VInt 3493) 30
           (state_after (async_update_data (serving acme))
              (__init__ (VStr "ups.local") None))
           (log_of (async_update_data (serving acme))
              (__init__ (VStr "ups.local") None))
           acme);
    reflexivity.
Defined.

Lemma unload_without_handle_witness :
  async_unload_entry (H := home_assistant) true configured
  = (configured, [UnloadPlatforms "0123abcd" ["sensor"] true],
     Raises (KeyError "nut")).
Proof.
  apply (proj1 (unload_without_handle (H := home_assistant) configured true)).
  reflexivity.
Defined.

Lemma second_unload_raises_witness :
  async_unload_entry (H := home_assistant) false
    (state_after (async_unload_entry (H := home_assistant) true) loaded)
  = (state_after (async_unload_entry (H := home_assistant) true) loaded,
     [UnloadPlatforms "0123abcd" ["sensor"] false],
     Raises (KeyError "0123abcd")).
Proof.
  apply (second_unload_raises (H := home_assistant) loaded false
           {[ "0123abcd" := acme_handle ]} acme_handle);
    reflexivity.
Defined.

End LifecycleMore.
